(** * Risk assessment model for DeFi yield strategies

    A shallow embedding of [ml-models/risk-assessor.py] (class
    [RiskAssessmentModel]) and the properties of its multi-dimensional
    risk aggregation engine.

    Conventions of the embedding.
    - Python numbers ([int] and [float]) are exact rationals [Q]; the
      rounding of IEEE doubles is not modelled.
    - The input mapping [opportunity_data] is a dictionary keyed by
      attribute name.  It is split by the type of the value the code
      expects under each key (numbers, booleans, strings, lists of
      strings, and the list of audit entries), so that a key of the source
      is a string key here and an absent key is an absent entry.
    - [pd.Timestamp.now()] reads the wall clock.  The clock is an explicit
      sequence of readings, in nanoseconds since the epoch; the [k]-th
      call of [now()] during one assessment returns the [k]-th reading.
    - The date of an audit entry is kept by what [pd.Timestamp] makes of
      it: an instant with or without a time zone, the missing timestamp,
      or a conversion error.
    - An f-string is kept as the list of its literal and interpolated
      fragments; numbers are not rendered to text. *)

From Stdlib Require Import QArith Qminmax Qabs Lqa.
From stdpp Require Import base strings finite gmap list sorting.

Open Scope Q_scope.

(** * Python runtime *)

Module Py.

(** [d.get(key, default)] once the entry [d !! key] has been looked up. *)
Definition get {A : Type} (entry : option A) (default : A) : A :=
  match entry with
  | Some v => v
  | None => default
  end.

(** Comparisons of numbers, as booleans. *)
Definition gt (x y : Q) : bool := negb (Qle_bool x y).
Definition lt (x y : Q) : bool := negb (Qle_bool y x).
Definition ge (x y : Q) : bool := Qle_bool y x.
Definition le (x y : Q) : bool := Qle_bool x y.

(** [min(a, b)] and [max(a, b)]: the first argument unless the second is
    strictly smaller (resp. larger). *)
Definition min (a b : Q) : Q := Qmin a b.
Definition max (a b : Q) : Q := Qmax a b.
Definition abs (a : Q) : Q := Qabs a.

(** [str.lower()] on the ASCII letters. *)
Definition lower_ascii (c : Ascii.ascii) : Ascii.ascii :=
  let n := Ascii.nat_of_ascii c in
  if ((65 <=? n) && (n <=? 90))%nat then Ascii.ascii_of_nat (n + 32) else c.

Fixpoint lower (s : string) : string :=
  match s with
  | EmptyString => EmptyString
  | String c rest => String (lower_ascii c) (lower rest)
  end.

(** [x in xs] for a list of strings. *)
Definition contains (x : string) (xs : list string) : bool :=
  existsb (String.eqb x) xs.

(** Exceptions the model can raise. *)
Inductive exn : Type :=
| KeyError (key : string)
| ValueError (what : string)
| TypeError (operation : string).

Inductive result (A : Type) : Type :=
| Ok (v : A)
| Raise (e : exn).
Arguments Ok {A} v.
Arguments Raise {A} e.

Definition bind {A B : Type} (c : result A) (k : A -> result B) : result B :=
  match c with
  | Ok v => k v
  | Raise e => Raise e
  end.

(** [d[key]]: raises [KeyError] on an absent entry. *)
Definition subscript {A : Type} (entry : option A) (key : string) : result A :=
  match entry with
  | Some v => Ok v
  | None => Raise (KeyError key)
  end.

(** Fragments of an f-string. *)
Inductive fragment : Type :=
| Text (s : string)
| Num (q : Q) (format_spec : string)
| Str (s : string).

Definition fstring : Type := list fragment.

(** A plain string literal. *)
Definition lit (s : string) : fstring := [Text s].

End Py.

Import Py (Ok, Raise, KeyError, ValueError, Text, Num, Str, lit).

(** Statements that may raise are sequenced with [x ← c; k]. *)
#[global] Instance result_bind : MBind Py.result :=
  fun A B k c => Py.bind c k.
#[global] Instance result_ret : MRet Py.result :=
  fun A v => Ok v.
#[global] Instance result_fmap : FMap Py.result :=
  fun A B f c => Py.bind c (fun v => Ok (f v)).

(** * Timestamps *)

(** The clock: reading number [k] of [pd.Timestamp.now()], in nanoseconds. *)
Definition clock : Type := nat -> Z.

Definition ns_per_day : Z := 86400000000000.

(** [(later - earlier).days]: whole days of the difference, rounded down. *)
Definition timedelta_days (later earlier : Z) : Z :=
  ((later - earlier) / ns_per_day)%Z.

(** What an audit entry holds under ['date'], by what [pd.Timestamp]
    makes of it: an instant without a time zone, an instant with a time
    zone, a missing value ([None], a NaN, the string ['NaT']), or a value
    for which the conversion raises. *)
Inductive date_value : Type :=
| Parseable (ns : Z)
| Aware (ns : Z)
| Missing
| Unparseable.

(** A [pd.Timestamp]: with or without a time zone, or [NaT]. *)
Inductive timestamp : Type :=
| Naive (ns : Z)
| Zoned (ns : Z)
| NaT.

Definition Timestamp (v : date_value) : Py.result timestamp :=
  match v with
  | Parseable ns => Ok (Naive ns)
  | Aware ns => Ok (Zoned ns)
  | Missing => Ok NaT
  | Unparseable => Raise (ValueError "date")
  end.

(** A number of days, or the NaN that [NaT.days] is. *)
Inductive days : Type :=
| Days (d : Z)
| NaN.

(** [(today - stamp).days], where [today] is a reading of [now()] and has
    no time zone: subtracting an instant with a time zone raises
    [TypeError], and subtracting [NaT] gives [NaT]. *)
Definition days_since (today : Z) (stamp : timestamp) : Py.result days :=
  match stamp with
  | Naive ns => Ok (Days (timedelta_days today ns))
  | Zoned _ => Raise (Py.TypeError "-")
  | NaT => Ok NaN
  end.

(** [max(0.5, 1 - (audit_age_days / 365))].  With a NaN age the second
    argument is NaN, which is not greater than 0.5, so [max] keeps its
    first argument. *)
Definition decay (audit_age_days : days) : Q :=
  match audit_age_days with
  | Days d => Py.max 0.5 (1 - (inject_Z d / 365))
  | NaN => 0.5
  end.

(** * Data model *)

Inductive RiskCategory : Type :=
| SMART_CONTRACT
| IMPERMANENT_LOSS
| LIQUIDITY
| PROTOCOL
| MARKET
| REGULATORY
| ORACLE
| BRIDGE.

Definition RiskCategory_value (c : RiskCategory) : string :=
  match c with
  | SMART_CONTRACT => "smart_contract"
  | IMPERMANENT_LOSS => "impermanent_loss"
  | LIQUIDITY => "liquidity"
  | PROTOCOL => "protocol"
  | MARKET => "market"
  | REGULATORY => "regulatory"
  | ORACLE => "oracle"
  | BRIDGE => "bridge"
  end.

#[global] Instance RiskCategory_eq_dec : EqDecision RiskCategory.
Proof. solve_decision. Defined.

#[global] Program Instance RiskCategory_finite : Finite RiskCategory := {|
  enum := [ SMART_CONTRACT; IMPERMANENT_LOSS; LIQUIDITY; PROTOCOL;
            MARKET; REGULATORY; ORACLE; BRIDGE ]
|}.
Next Obligation. by apply (bool_decide_unpack _). Qed.
Next Obligation. intros []; set_solver. Qed.

(** Values stored in [factors]. *)
Inductive factor : Type :=
| FNum (q : Q)
| FBool (b : bool)
| FStr (s : string).

Record RiskMetrics : Type := {
  category : RiskCategory;
  score : Q;
  confidence : Q;
  factors : gmap string factor;
  mitigation : list Py.fstring
}.

(** One entry of [opportunity_data['audits']]. *)
Record Audit : Type := {
  audit_firm : option string;
  audit_date : option date_value
}.

(** [opportunity_data]: the entries by the type of their value. *)
Record OpportunityRecord : Type := {
  numbers : gmap string Q;
  flags : gmap string bool;
  texts : gmap string string;
  labels : gmap string (list string);
  audits : option (list Audit)
}.

(** [data.get(key, default)] at each type. *)
Definition get_num (data : OpportunityRecord) (key : string) (default : Q) : Q :=
  Py.get (numbers data !! key) default.
Definition get_flag (data : OpportunityRecord) (key : string) (default : bool) : bool :=
  Py.get (flags data !! key) default.
Definition get_text (data : OpportunityRecord) (key : string) (default : string) : string :=
  Py.get (texts data !! key) default.
Definition get_labels (data : OpportunityRecord) (key : string)
    (default : list string) : list string :=
  Py.get (labels data !! key) default.

(** The result of [assess_opportunity]. *)
Record AssessmentResult : Type := {
  overall_score : Q;
  risk_tier : string;
  risk_metrics : gmap string RiskMetrics;
  recommendations : list Py.fstring;
  suitable_for : list string;
  max_allocation_percentage : Q
}.

(** * The model's tables ([__init__]) *)

Definition risk_weights : gmap RiskCategory Q :=
  list_to_map
    [ (SMART_CONTRACT, 0.25);
      (IMPERMANENT_LOSS, 0.20);
      (LIQUIDITY, 0.15);
      (PROTOCOL, 0.15);
      (MARKET, 0.10);
      (REGULATORY, 0.05);
      (ORACLE, 0.05);
      (BRIDGE, 0.05) ].

Definition audit_firms : gmap string Q :=
  list_to_map
    [ ("certik", 0.9);
      ("peckshield", 0.85);
      ("trail_of_bits", 0.9);
      ("consensys", 0.85);
      ("openzeppelin", 0.88);
      ("quantstamp", 0.82);
      ("hacken", 0.75) ].

(** * Smart-contract risk *)

(** The local variables every assessor threads through its blocks. *)
Definition frame : Type := (gmap string factor * list Py.fstring)%type.

(** The loop over [audits] (the [for audit in audits] block).  [k] counts
    the clock readings taken so far: the clock is read once for every
    audit whose firm is in [audit_firms], before the date is looked up. *)
Fixpoint audit_loop (now : clock) (k : nat) (audits : list Audit)
    (best_audit_score : Q) : Py.result Q :=
  match audits with
  | [] => Ok best_audit_score
  | audit :: rest =>
      let firm := Py.lower (Py.get (audit_firm audit) "") in
      match audit_firms !! firm with
      | Some firm_reputation =>
          let today := now k in
          date ← Py.subscript (audit_date audit) "date";
          stamp ← Timestamp date;
          audit_age_days ← days_since today stamp;
          let age_factor := decay audit_age_days in
          let score := (1 - firm_reputation * age_factor) * 10 in
          audit_loop now (S k) rest (Py.min best_audit_score score)
      | None => audit_loop now k rest best_audit_score
      end
  end.

(** [# Check audit status] *)
Definition check_audit_status (now : clock) (data : OpportunityRecord)
    (fr : frame) : Py.result (Q * frame) :=
  let '(factors, mitigations) := fr in
  let audit_score := 10 in
  match audits data with
  | Some ((_ :: _) as audits) =>
      best_audit_score ← audit_loop now 0 audits 10;
      let audit_score := best_audit_score in
      let factors := <["audit_quality" := FNum (10 - audit_score)]> factors in
      let mitigations :=
        if Py.lt audit_score 3
        then mitigations ++ [lit "Multiple reputable audits completed"]
        else mitigations in
      mret (audit_score, (factors, mitigations))
  | _ =>
      let factors := <["audit_quality" := FNum 0]> factors in
      let mitigations :=
        mitigations ++ [lit "⚠️ Get protocol audited by reputable firm"] in
      mret (audit_score, (factors, mitigations))
  end.

(** [# Check for bug bounty] *)
Definition check_bug_bounty (data : OpportunityRecord)
    (audit_score : Q) (fr : frame) : Q * frame :=
  let '(factors, mitigations) := fr in
  let bug_bounty := get_num data "bug_bounty_size" 0 in
  if Py.gt bug_bounty 1000000 then
    (audit_score * 0.8,
     (<["bug_bounty" := FNum 8]> factors,
      mitigations ++
        [[Text "$"; Num bug_bounty ",.0f"; Text " bug bounty program active"]]))
  else if Py.gt bug_bounty 100000 then
    (audit_score * 0.9, (<["bug_bounty" := FNum 5]> factors, mitigations))
  else
    (audit_score,
     (<["bug_bounty" := FNum 2]> factors,
      mitigations ++ [lit "⚠️ Consider larger bug bounty program"])).

(** [# Check contract age and battle-testing] *)
Definition check_contract_age (data : OpportunityRecord)
    (audit_score : Q) (fr : frame) : Q * frame :=
  let '(factors, mitigations) := fr in
  let contract_age_days := get_num data "contract_age_days" 0 in
  if Py.gt contract_age_days 365 then
    (audit_score * 0.7,
     (<["battle_tested" := FNum 8]> factors,
      mitigations ++ [lit "Contract battle-tested for >1 year"]))
  else if Py.gt contract_age_days 90 then
    (audit_score * 0.85, (<["battle_tested" := FNum 5]> factors, mitigations))
  else
    (audit_score,
     (<["battle_tested" := FNum 2]> factors,
      mitigations ++ [lit "⚠️ New contract - wait for battle-testing"])).

(** [# Check for known vulnerabilities] *)
Definition check_known_vulnerabilities (data : OpportunityRecord)
    (audit_score : Q) (fr : frame) : Q * frame :=
  let '(factors, mitigations) := fr in
  if Py.gt (get_num data "known_vulnerabilities" 0) 0 then
    (Py.min 10 (audit_score + 3),
     (factors, mitigations ++ [lit "🚨 Known vulnerabilities detected"]))
  else (audit_score, (factors, mitigations)).

(** [# Check upgrade mechanism] *)
Definition check_upgrade_mechanism (data : OpportunityRecord)
    (audit_score : Q) (fr : frame) : Py.result (Q * frame) :=
  let '(factors, mitigations) := fr in
  if get_flag data "upgradeable" false then
    if Py.gt (get_num data "timelock_days" 0) 2 then
      timelock_days ← Py.subscript (numbers data !! "timelock_days") "timelock_days";
      mret (audit_score,
            (<["upgrade_risk" := FNum 5]> factors,
             mitigations ++
               [[Num timelock_days ""; Text " day timelock on upgrades"]]))
    else
      mret (Py.min 10 (audit_score + 2),
            (<["upgrade_risk" := FNum 8]> factors,
             mitigations ++ [lit "⚠️ Upgradeable with short/no timelock"]))
  else
    mret (audit_score,
          (<["upgrade_risk" := FNum 2]> factors,
           mitigations ++ [lit "Non-upgradeable contract"])).

Definition assess_smart_contract_risk (now : clock) (data : OpportunityRecord)
    : Py.result RiskMetrics :=
  let fr : frame := (∅, []) in
  '(audit_score, fr) ← check_audit_status now data fr;
  let '(audit_score, fr) := check_bug_bounty data audit_score fr in
  let '(audit_score, fr) := check_contract_age data audit_score fr in
  let '(audit_score, fr) := check_known_vulnerabilities data audit_score fr in
  '(audit_score, fr) ← check_upgrade_mechanism data audit_score fr;
  let '(factors, mitigations) := fr in
  mret {| category := SMART_CONTRACT;
          score := Py.min 10 audit_score;
          confidence := 0.85;
          factors := factors;
          mitigation := mitigations |}.

(** * Impermanent-loss risk *)

Definition assess_impermanent_loss_risk (data : OpportunityRecord) : RiskMetrics :=
  let factors : gmap string factor := ∅ in
  let mitigations : list Py.fstring := [] in
  if negb (get_flag data "is_lp_position" false) then
    {| category := IMPERMANENT_LOSS;
       score := 0;
       confidence := 1.0;
       factors := {["not_applicable" := FBool true]};
       mitigation := [lit "Not an LP position"] |}
  else
    let vol1 := get_num data "token1_volatility" 0.5 in
    let vol2 := get_num data "token2_volatility" 0.5 in
    let correlation := get_num data "token_correlation" 0 in
    let avg_vol := (vol1 + vol2) / 2 in
    let vol_diff := Py.abs (vol1 - vol2) in
    let vol_risk := Py.min 10 (avg_vol * 20) in
    let correlation_risk := (1 - Py.abs correlation) * 5 in
    let divergence_risk := Py.min 5 (vol_diff * 10) in
    let il_score :=
      vol_risk * 0.5 + correlation_risk * 0.3 + divergence_risk * 0.2 in
    let factors := <["volatility" := FNum avg_vol]> factors in
    let factors := <["correlation" := FNum correlation]> factors in
    let factors := <["divergence" := FNum vol_diff]> factors in
    let '(il_score, mitigations) :=
      if get_flag data "il_protection" false
      then (il_score * 0.3, mitigations ++ [lit "IL protection available"])
      else (il_score, mitigations) in
    let '(il_score, mitigations) :=
      if get_flag data "is_stable_pair" false
      then (Py.min 2 il_score,
            mitigations ++ [lit "Stable pair - minimal IL risk"])
      else (il_score, mitigations) in
    let '(il_score, mitigations) :=
      if get_flag data "concentrated_liquidity" false
      then (Py.min 10 (il_score * 1.5),
            mitigations ++ [lit "⚠️ Concentrated liquidity - higher IL risk"])
      else (il_score, mitigations) in
    let mitigations :=
      if Py.gt il_score 7 then
        mitigations ++ [lit "⚠️ Consider single-sided staking instead";
                        lit "⚠️ Use IL hedging strategies"]
      else if Py.gt il_score 4 then
        mitigations ++ [lit "Monitor price ratios regularly";
                        lit "Consider rebalancing if divergence occurs"]
      else mitigations in
    {| category := IMPERMANENT_LOSS;
       score := il_score;
       confidence := 0.8;
       factors := factors;
       mitigation := mitigations |}.

(** * Liquidity risk *)

Definition assess_liquidity_risk (data : OpportunityRecord) : RiskMetrics :=
  let factors : gmap string factor := ∅ in
  let mitigations : list Py.fstring := [] in
  let tvl := get_num data "tvl" 0 in
  let volume_24h := get_num data "volume_24h" 0 in
  let unique_lps := get_num data "unique_liquidity_providers" 0 in
  let '(tvl_risk, factors, mitigations) :=
    if Py.gt tvl 10000000 then
      (1, <["tvl_depth" := FNum 9]> factors,
       mitigations ++ [lit "Deep liquidity pool >$10M"])
    else if Py.gt tvl 1000000 then
      (3, <["tvl_depth" := FNum 6]> factors, mitigations)
    else if Py.gt tvl 100000 then
      (6, <["tvl_depth" := FNum 3]> factors, mitigations)
    else
      (9, <["tvl_depth" := FNum 1]> factors,
       mitigations ++ [lit "⚠️ Low liquidity - difficult exits"]) in
  let '(volume_risk, factors, mitigations) :=
    if Py.gt tvl 0 then
      let turnover := volume_24h / tvl in
      let factors := <["turnover" := FNum turnover]> factors in
      if Py.gt turnover 1 then
        (2, factors, mitigations ++ [lit "High trading activity"])
      else if Py.gt turnover 0.1 then
        (4, factors, mitigations)
      else
        (7, factors, mitigations ++ [lit "⚠️ Low trading volume"])
    else (10, factors, mitigations) in
  let '(concentration_risk, factors, mitigations) :=
    if Py.gt unique_lps 100 then
      (2, <["lp_distribution" := FNum 8]> factors,
       mitigations ++ [lit "Well-distributed liquidity providers"])
    else if Py.gt unique_lps 20 then
      (5, <["lp_distribution" := FNum 5]> factors, mitigations)
    else
      (8, <["lp_distribution" := FNum 2]> factors,
       mitigations ++ [lit "⚠️ Concentrated liquidity providers"]) in
  let lock_days := get_num data "lock_period_days" 0 in
  let '(lock_risk, factors, mitigations) :=
    if Py.gt lock_days 30 then
      (Py.min 10 (lock_days / 10),
       <["lock_period" := FNum lock_days]> factors,
       mitigations ++ [[Text "⚠️ "; Num lock_days ""; Text " day lock period"]])
    else (0, <["lock_period" := FNum 0]> factors, mitigations) in
  let liquidity_score :=
    tvl_risk * 0.4 + volume_risk * 0.3 + concentration_risk * 0.2
    + lock_risk * 0.1 in
  {| category := LIQUIDITY;
     score := liquidity_score;
     confidence := 0.9;
     factors := factors;
     mitigation := mitigations |}.

(** * Protocol risk *)

Definition assess_protocol_risk (data : OpportunityRecord) : RiskMetrics :=
  let factors : gmap string factor := ∅ in
  let mitigations : list Py.fstring := [] in
  let protocol_tvl := get_num data "protocol_tvl" 0 in
  let protocol_age_days := get_num data "protocol_age_days" 0 in
  let team_doxxed := get_flag data "team_doxxed" false in
  let '(tvl_risk, factors, mitigations) :=
    if Py.gt protocol_tvl 1000000000 then
      (1, <["protocol_size" := FNum 9]> factors,
       mitigations ++ [lit "Blue-chip protocol with >$1B TVL"])
    else if Py.gt protocol_tvl 100000000 then
      (3, <["protocol_size" := FNum 7]> factors, mitigations)
    else if Py.gt protocol_tvl 10000000 then
      (5, <["protocol_size" := FNum 5]> factors, mitigations)
    else
      (8, <["protocol_size" := FNum 2]> factors,
       mitigations ++ [lit "⚠️ Small protocol - higher risk"]) in
  let '(age_risk, factors, mitigations) :=
    if Py.gt protocol_age_days 365 then
      (2, <["maturity" := FNum 8]> factors,
       mitigations ++ [lit "Established protocol >1 year"])
    else if Py.gt protocol_age_days 90 then
      (5, <["maturity" := FNum 5]> factors, mitigations)
    else
      (8, <["maturity" := FNum 2]> factors,
       mitigations ++ [lit "⚠️ New protocol <3 months"]) in
  let '(team_risk, factors, mitigations) :=
    if team_doxxed then
      (3, <["team_trust" := FNum 7]> factors,
       mitigations ++ [lit "Team is doxxed/known"])
    else
      (7, <["team_trust" := FNum 3]> factors,
       mitigations ++ [lit "⚠️ Anonymous team"]) in
  let previous_exploits := get_num data "previous_exploits" 0 in
  let '(exploit_risk, factors, mitigations) :=
    if Py.gt previous_exploits 0 then
      (Py.min 10 (5 + previous_exploits * 2),
       <["exploit_history" := FNum previous_exploits]> factors,
       mitigations ++
         [[Text "🚨 "; Num previous_exploits ""; Text " previous exploits"]])
    else (0, <["exploit_history" := FNum 0]> factors, mitigations) in
  let protocol_score :=
    tvl_risk * 0.3 + age_risk * 0.3 + team_risk * 0.2 + exploit_risk * 0.2 in
  {| category := PROTOCOL;
     score := protocol_score;
     confidence := 0.85;
     factors := factors;
     mitigation := mitigations |}.

(** * Market risk *)

Definition assess_market_risk (data : OpportunityRecord) : RiskMetrics :=
  let factors : gmap string factor := ∅ in
  let mitigations : list Py.fstring := [] in
  let token_types := get_labels data "token_types" [] in
  let '(type_risk, factors, mitigations) :=
    if Py.contains "stablecoin" token_types then
      (2, <["token_stability" := FNum 8]> factors,
       mitigations ++ [lit "Stablecoin exposure reduces volatility"])
    else if Py.contains "bluechip" token_types then
      (4, <["token_stability" := FNum 6]> factors, mitigations)
    else if Py.contains "altcoin" token_types then
      (7, <["token_stability" := FNum 3]> factors, mitigations)
    else
      (9, <["token_stability" := FNum 1]> factors,
       mitigations ++ [lit "⚠️ High volatility token exposure"]) in
  let btc_correlation := Py.abs (get_num data "btc_correlation" 0.5) in
  let factors := <["market_correlation" := FNum btc_correlation]> factors in
  let '(correlation_risk, mitigations) :=
    if Py.gt btc_correlation 0.8 then
      (7, mitigations ++ [lit "⚠️ High correlation with BTC"])
    else if Py.gt btc_correlation 0.5 then (5, mitigations)
    else (3, mitigations ++ [lit "Low market correlation"]) in
  let '(macro_risk, factors, mitigations) :=
    if get_flag data "sensitive_to_rates" false then
      (6, <["macro_sensitive" := FBool true]> factors,
       mitigations ++ [lit "⚠️ Sensitive to interest rate changes"])
    else (3, <["macro_sensitive" := FBool false]> factors, mitigations) in
  let market_score :=
    type_risk * 0.5 + correlation_risk * 0.3 + macro_risk * 0.2 in
  {| category := MARKET;
     score := market_score;
     confidence := 0.75;
     factors := factors;
     mitigation := mitigations |}.

(** * Regulatory risk *)

Definition assess_regulatory_risk (data : OpportunityRecord) : RiskMetrics :=
  let factors : gmap string factor := ∅ in
  let mitigations : list Py.fstring := [] in
  let restricted_regions := get_labels data "restricted_regions" [] in
  let '(geo_risk, factors, mitigations) :=
    if Py.contains "US" restricted_regions then
      (7, <["us_restricted" := FBool true]> factors,
       mitigations ++ [lit "⚠️ US restrictions apply"])
    else (3, <["us_restricted" := FBool false]> factors, mitigations) in
  let '(kyc_risk, factors, mitigations) :=
    if get_flag data "kyc_required" false then
      (2, <["kyc" := FBool true]> factors,
       mitigations ++ [lit "KYC compliance required"])
    else (5, <["kyc" := FBool false]> factors, mitigations) in
  let '(security_risk, factors, mitigations) :=
    if get_flag data "potential_security" false then
      (8, <["security_risk" := FBool true]> factors,
       mitigations ++ [lit "🚨 Potential security classification risk"])
    else (3, <["security_risk" := FBool false]> factors, mitigations) in
  let regulatory_score :=
    geo_risk * 0.4 + kyc_risk * 0.2 + security_risk * 0.4 in
  {| category := REGULATORY;
     score := regulatory_score;
     confidence := 0.7;
     factors := factors;
     mitigation := mitigations |}.

(** * Oracle risk *)

Definition oracle_scores : gmap string Q :=
  list_to_map
    [ ("chainlink", 2); ("band", 4); ("dia", 5); ("api3", 5); ("pyth", 3);
      ("uma", 4); ("twap", 6); ("spot", 8); ("unknown", 9) ].

Definition assess_oracle_risk (data : OpportunityRecord) : RiskMetrics :=
  let factors : gmap string factor := ∅ in
  let mitigations : list Py.fstring := [] in
  let oracle_provider := get_text data "oracle_provider" "unknown" in
  let oracle_risk := Py.get (oracle_scores !! Py.lower oracle_provider) 9 in
  let factors := <["oracle_provider" := FStr oracle_provider]> factors in
  let mitigations :=
    if Py.le oracle_risk 3 then
      mitigations ++ [[Text "Reputable oracle: "; Str oracle_provider]]
    else if Py.ge oracle_risk 7 then
      mitigations ++ [[Text "⚠️ Weak price feed: "; Str oracle_provider]]
    else mitigations in
  let '(oracle_risk, factors, mitigations) :=
    if get_flag data "multi_oracle" false then
      (oracle_risk * 0.6, <["multi_oracle" := FBool true]> factors,
       mitigations ++ [lit "Multiple oracle sources for redundancy"])
    else (oracle_risk, <["multi_oracle" := FBool false]> factors, mitigations) in
  let '(oracle_risk, factors, mitigations) :=
    if get_flag data "twap_enabled" false then
      (oracle_risk * 0.8, <["twap_protection" := FBool true]> factors,
       mitigations ++ [lit "TWAP protection against manipulation"])
    else
      (oracle_risk, <["twap_protection" := FBool false]> factors, mitigations) in
  {| category := ORACLE;
     score := oracle_risk;
     confidence := 0.8;
     factors := factors;
     mitigation := mitigations |}.

(** * Bridge risk *)

Definition bridge_scores : gmap string Q :=
  list_to_map
    [ ("native", 2); ("layerzero", 3); ("wormhole", 4); ("axelar", 4);
      ("celer", 5); ("multichain", 7); ("unknown", 9) ].

Definition assess_bridge_risk (data : OpportunityRecord) : RiskMetrics :=
  let factors : gmap string factor := ∅ in
  let mitigations : list Py.fstring := [] in
  if negb (get_flag data "uses_bridge" false) then
    {| category := BRIDGE;
       score := 0;
       confidence := 1.0;
       factors := {["not_applicable" := FBool true]};
       mitigation := [lit "No bridge required"] |}
  else
    let bridge_provider := get_text data "bridge_provider" "unknown" in
    let bridge_risk := Py.get (bridge_scores !! Py.lower bridge_provider) 9 in
    let factors := <["bridge_provider" := FStr bridge_provider]> factors in
    let bridge_tvl := get_num data "bridge_tvl" 0 in
    let '(bridge_risk, factors, mitigations) :=
      if Py.gt bridge_tvl 1000000000 then
        (bridge_risk * 0.7, <["bridge_security" := FNum 7]> factors,
         mitigations ++ [lit "High-security bridge with >$1B locked"])
      else if Py.lt bridge_tvl 10000000 then
        (Py.min 10 (bridge_risk * 1.5), <["bridge_security" := FNum 3]> factors,
         mitigations ++ [lit "⚠️ Low-security bridge"])
      else (bridge_risk, factors, mitigations) in
    let '(bridge_risk, mitigations) :=
      if get_flag data "bridge_hacked_before" false then
        (Py.min 10 (bridge_risk + 3),
         mitigations ++ [lit "🚨 Bridge has been hacked before"])
      else (bridge_risk, mitigations) in
    {| category := BRIDGE;
       score := bridge_risk;
       confidence := 0.75;
       factors := factors;
       mitigation := mitigations |}.

(** * Aggregation and classification *)

(** One turn of the loop of [calculate_overall_risk]. *)
Definition accumulate (totals : Q * Q) (metric : RiskMetrics) : Q * Q :=
  let '(total_score, total_weight) := totals in
  let weight := Py.get (risk_weights !! category metric) 0.1 in
  (total_score + score metric * weight * confidence metric,
   total_weight + weight * confidence metric).

Definition calculate_overall_risk (risk_metrics : list RiskMetrics) : Q :=
  let '(total_score, total_weight) := foldl accumulate (0, 0) risk_metrics in
  if Py.gt total_weight 0 then total_score / total_weight else 5.

Definition determine_risk_tier (overall_score : Q) : string :=
  if Py.lt overall_score 2 then "MINIMAL"
  else if Py.lt overall_score 4 then "LOW"
  else if Py.lt overall_score 6 then "MEDIUM"
  else if Py.lt overall_score 8 then "HIGH"
  else "EXTREME".

Definition determine_suitability (overall_score : Q) : list string :=
  let suitable : list string := [] in
  if Py.lt overall_score 4 then
    suitable ++ ["Conservative"; "Moderate"; "Aggressive"; "Degen"]
  else if Py.lt overall_score 6 then
    suitable ++ ["Moderate"; "Aggressive"; "Degen"]
  else if Py.lt overall_score 8 then
    suitable ++ ["Aggressive"; "Degen"]
  else suitable ++ ["Degen"].

Definition calculate_max_allocation (overall_score : Q) : Q :=
  if Py.lt overall_score 2 then 40
  else if Py.lt overall_score 4 then 25
  else if Py.lt overall_score 6 then 15
  else if Py.lt overall_score 8 then 8
  else 3.

(** * Recommendations *)

(** [sorted(risk_metrics, key=lambda x: x.score, reverse=True)]: a stable
    sort by descending score (equal scores keep their order). *)
Fixpoint insert_by_score (x : RiskMetrics) (l : list RiskMetrics)
    : list RiskMetrics :=
  match l with
  | [] => [x]
  | y :: rest =>
      if Py.gt (score y) (score x) then y :: insert_by_score x rest
      else x :: l
  end.

Definition sorted_by_score_desc (l : list RiskMetrics) : list RiskMetrics :=
  foldr insert_by_score [] l.

Definition generate_recommendations (risk_metrics : list RiskMetrics)
    (data : OpportunityRecord) : list Py.fstring :=
  let recommendations : list Py.fstring := [] in
  let sorted_metrics := sorted_by_score_desc risk_metrics in
  let recommendations :=
    foldl (fun recommendations metric =>
             if Py.gt (score metric) 6
             then recommendations ++ take 2 (mitigation metric)
             else recommendations)
          recommendations (take 3 sorted_metrics) in
  let overall_score := calculate_overall_risk risk_metrics in
  let max_allocation := calculate_max_allocation overall_score in
  let recommendations :=
    recommendations ++
      [[Text "💰 Maximum allocation: "; Num max_allocation "";
        Text "% of portfolio"]] in
  let recommendations :=
    if Py.gt overall_score 7 then
      recommendations ++ [lit "⏰ Consider waiting for risk factors to improve"]
    else if Py.gt (get_num data "apy" 0) 100 then
      recommendations ++ [lit "⏰ Enter gradually to avoid FOMO"]
    else recommendations in
  let recommendations :=
    if existsb (fun m => bool_decide (category m = IMPERMANENT_LOSS)
                         && Py.gt (score m) 6) risk_metrics
    then recommendations ++ [lit "🛡️ Consider IL hedging strategies or insurance"]
    else recommendations in
  recommendations.

(** * The entry point *)

(** [# Assess each risk category]: the list [risk_metrics]. *)
Definition assess_categories (now : clock) (data : OpportunityRecord)
    : Py.result (list RiskMetrics) :=
  let risk_metrics : list RiskMetrics := [] in
  smart_contract ← assess_smart_contract_risk now data;
  let risk_metrics := risk_metrics ++ [smart_contract] in
  let risk_metrics := risk_metrics ++ [assess_impermanent_loss_risk data] in
  let risk_metrics := risk_metrics ++ [assess_liquidity_risk data] in
  let risk_metrics := risk_metrics ++ [assess_protocol_risk data] in
  let risk_metrics := risk_metrics ++ [assess_market_risk data] in
  let risk_metrics := risk_metrics ++ [assess_regulatory_risk data] in
  let risk_metrics := risk_metrics ++ [assess_oracle_risk data] in
  let risk_metrics := risk_metrics ++ [assess_bridge_risk data] in
  mret risk_metrics.

(** [{rm.category.value: rm for rm in risk_metrics}]: later entries
    replace earlier ones under the same key. *)
Definition by_category (risk_metrics : list RiskMetrics)
    : gmap string RiskMetrics :=
  foldl (fun d rm => <[RiskCategory_value (category rm) := rm]> d) ∅
        risk_metrics.

Definition assess_opportunity (now : clock) (opportunity_data : OpportunityRecord)
    : Py.result AssessmentResult :=
  risk_metrics ← assess_categories now opportunity_data;
  let overall_score := calculate_overall_risk risk_metrics in
  let risk_tier := determine_risk_tier overall_score in
  let recommendations :=
    generate_recommendations risk_metrics opportunity_data in
  mret {| overall_score := overall_score;
          risk_tier := risk_tier;
          risk_metrics := by_category risk_metrics;
          recommendations := recommendations;
          suitable_for := determine_suitability overall_score;
          max_allocation_percentage := calculate_max_allocation overall_score |}.

(** * Concrete inputs *)

(** An input with no entry at all. *)
Definition empty_record : OpportunityRecord :=
  {| numbers := ∅; flags := ∅; texts := ∅; labels := ∅; audits := None |}.

(** A clock that stands still at the instant [t]. *)
Definition frozen (t : Z) : clock := fun _ => t.

(** The high-risk end-to-end scenario of the specification. *)
Definition memecoin_scenario : OpportunityRecord :=
  {| numbers := list_to_map
       [ ("tvl", 5000000); ("bug_bounty_size", 0); ("contract_age_days", 30);
         ("protocol_tvl", 5000000); ("protocol_age_days", 30) ];
     flags := list_to_map
       [ ("team_doxxed", false); ("is_lp_position", false);
         ("uses_bridge", false) ];
     texts := list_to_map [ ("oracle_provider", "unknown") ];
     labels := list_to_map [ ("token_types", ["memecoin"]) ];
     audits := Some [] |}.

(** The overall score in lowest terms, the tier and the allocation ceiling
    of a result. *)
Definition verdict (r : AssessmentResult) : Q * string * Q :=
  (Qred (overall_score r), risk_tier r, max_allocation_percentage r).

(** [data] with the number [v] under [key] and every other entry as it is. *)
Definition with_number (key : string) (v : Q) (data : OpportunityRecord)
    : OpportunityRecord :=
  {| numbers := <[key := v]> (numbers data);
     flags := flags data;
     texts := texts data;
     labels := labels data;
     audits := audits data |}.

(** [data] with the boolean [b] under [key]. *)
Definition with_flag (key : string) (b : bool) (data : OpportunityRecord)
    : OpportunityRecord :=
  {| numbers := numbers data;
     flags := <[key := b]> (flags data);
     texts := texts data;
     labels := labels data;
     audits := audits data |}.

(** [data] with the list [l] under ['audits']. *)
Definition with_audits (l : list Audit) (data : OpportunityRecord)
    : OpportunityRecord :=
  {| numbers := numbers data;
     flags := flags data;
     texts := texts data;
     labels := labels data;
     audits := Some l |}.

(** A stable pair held as concentrated liquidity, every other entry absent. *)
Definition stable_concentrated_pool : OpportunityRecord :=
  with_flag "is_lp_position" true
    (with_flag "is_stable_pair" true
       (with_flag "concentrated_liquidity" true empty_record)).

(** One audit by CertiK, dated at the epoch, and nothing else. *)
Definition certik_audit_record : OpportunityRecord :=
  with_audits
    [ {| audit_firm := Some "CertiK"; audit_date := Some (Parseable 0) |} ]
    empty_record.

(** One audit by CertiK without a date, and nothing else. *)
Definition undated_audit_record : OpportunityRecord :=
  with_audits [ {| audit_firm := Some "certik"; audit_date := None |} ]
    empty_record.

(** One audit entry with neither a firm nor a date, and nothing else. *)
Definition unnamed_audit_record : OpportunityRecord :=
  with_audits [ {| audit_firm := None; audit_date := None |} ] empty_record.

(** Four hundred days after the epoch. *)
Definition day_400 : Z := 400 * ns_per_day.

(** One audit by CertiK dated 400 days after the epoch. *)
Definition future_audit_record : OpportunityRecord :=
  with_audits
    [ {| audit_firm := Some "certik"; audit_date := Some (Parseable day_400) |} ]
    empty_record.

(** An LP position with volatilities 0 and a correlation entry of 3. *)
Definition miscorrelated_pool : OpportunityRecord :=
  with_flag "is_lp_position" true
    (with_number "token1_volatility" 0
       (with_number "token2_volatility" 0
          (with_number "token_correlation" 3 empty_record))).

(** * Predicates on inputs and results *)

(** The call returns (does not raise). *)
Definition is_ok {A : Type} (c : Py.result A) : Prop := exists v, c = Ok v.

(** The audits the loop runs over: none when ['audits'] is absent. *)
Definition audit_list (data : OpportunityRecord) : list Audit :=
  Py.get (audits data) [].

(** The firm of the audit, lower-cased, is in [audit_firms]. *)
Definition recognised (audit : Audit) : Prop :=
  is_Some (audit_firms !! Py.lower (Py.get (audit_firm audit) "")).

#[global] Instance recognised_dec (audit : Audit) : Decision (recognised audit).
Proof. unfold recognised. apply _. Defined.

(** An audit of a recognised firm carries a date the loop can take the
    age of: an instant without a time zone, or a missing value. *)
Definition dated (audit : Audit) : Prop :=
  recognised audit ->
  audit_date audit = Some Missing
  \/ exists t, audit_date audit = Some (Parseable t).

(** An audit of a recognised firm carries an instant without a time zone
    that is not after any reading of the clock. *)
Definition past (now : clock) (audit : Audit) : Prop :=
  recognised audit ->
  exists t, audit_date audit = Some (Parseable t) /\ forall k, (t <= now k)%Z.

(** The two clocks give every dated audit of a recognised firm the same
    age in whole days.  The [k]-th such audit is the one the [k]-th
    reading is taken for. *)
Definition same_audit_ages (now1 now2 : clock) (data : OpportunityRecord) : Prop :=
  forall (k : nat) (a : Audit) (t : Z),
    filter recognised (audit_list data) !! k = Some a ->
    audit_date a = Some (Parseable t) ->
    timedelta_days (now1 k) t = timedelta_days (now2 k) t.

(** A valid input: volatilities are not negative, the correlation is a
    correlation, and no recognised audit is undated or dated in the
    future. *)
Definition valid_record (now : clock) (data : OpportunityRecord) : Prop :=
  Forall (past now) (audit_list data)
  /\ 0 <= get_num data "token1_volatility" 0.5
  /\ 0 <= get_num data "token2_volatility" 0.5
  /\ Py.abs (get_num data "token_correlation" 0) <= 1.

(** Score within [0, 10] and confidence within [0, 1]. *)
Definition in_range (rm : RiskMetrics) : Prop :=
  0 <= score rm <= 10 /\ 0 <= confidence rm <= 1.

(** The seven assessors that do not read the clock, in the order of the
    entry point. *)
Definition other_metrics (data : OpportunityRecord) : list RiskMetrics :=
  [ assess_impermanent_loss_risk data; assess_liquidity_risk data;
    assess_protocol_risk data; assess_market_risk data;
    assess_regulatory_risk data; assess_oracle_risk data;
    assess_bridge_risk data ].

(** * The aggregation formula, as the specification writes it *)

(** The fixed category-weight table of the specification. *)
Definition spec_weight (c : RiskCategory) : Q :=
  match c with
  | SMART_CONTRACT => 0.25
  | IMPERMANENT_LOSS => 0.20
  | LIQUIDITY => 0.15
  | PROTOCOL => 0.15
  | MARKET => 0.10
  | REGULATORY => 0.05
  | ORACLE => 0.05
  | BRIDGE => 0.05
  end.

(** [Σ f] over a list of metrics. *)
Definition sum_over (f : RiskMetrics -> Q) (ms : list RiskMetrics) : Q :=
  foldr (fun m acc => f m + acc) 0 ms.

(** [Σ (score_i * weight_i * confidence_i)] *)
Definition spec_numerator (ms : list RiskMetrics) : Q :=
  sum_over (fun m => score m * spec_weight (category m) * confidence m) ms.

(** [Σ (weight_i * confidence_i)] *)
Definition spec_denominator (ms : list RiskMetrics) : Q :=
  sum_over (fun m => spec_weight (category m) * confidence m) ms.

(** A deep, busy pool of stablecoins on an established protocol with a
    known team and a Chainlink feed; no audits listed. *)
Definition deep_pool_record : OpportunityRecord :=
  {| numbers := list_to_map
       [ ("tvl", 20000000); ("volume_24h", 30000000);
         ("unique_liquidity_providers", 200);
         ("protocol_tvl", 2000000000); ("protocol_age_days", 400) ];
     flags := list_to_map [ ("team_doxxed", true) ];
     texts := list_to_map [ ("oracle_provider", "Chainlink") ];
     labels := list_to_map [ ("token_types", ["stablecoin"]) ];
     audits := None |}.

(** A metric of the highest score and of confidence 0. *)
Definition unweighted_metric : RiskMetrics :=
  {| category := ORACLE;
     score := 10;
     confidence := 0;
     factors := ∅;
     mitigation := [] |}.

(** The blocks of [assess_smart_contract_risk] that follow the audit
    check, from the base risk and the frame it leaves. *)
Definition after_audit_check (data : OpportunityRecord) (audit_score : Q)
    (fr : frame) : Py.result RiskMetrics :=
  let '(audit_score, fr) := check_bug_bounty data audit_score fr in
  let '(audit_score, fr) := check_contract_age data audit_score fr in
  let '(audit_score, fr) := check_known_vulnerabilities data audit_score fr in
  '(audit_score, fr) ← check_upgrade_mechanism data audit_score fr;
  let '(factors, mitigations) := fr in
  mret {| category := SMART_CONTRACT;
          score := Py.min 10 audit_score;
          confidence := 0.85;
          factors := factors;
          mitigation := mitigations |}.

(** The clock [later] never reads before the clock [earlier]. *)
Definition not_before (earlier later : clock) : Prop :=
  forall k, (earlier k <= later k)%Z.

(** [data] with the string [v] under [key]. *)
Definition with_text (key : string) (v : string) (data : OpportunityRecord)
    : OpportunityRecord :=
  {| numbers := numbers data;
     flags := flags data;
     texts := <[key := v]> (texts data);
     labels := labels data;
     audits := audits data |}.

(** The keys of the dictionary of metrics: the values of the categories. *)
Definition category_keys : gset string :=
  list_to_set (RiskCategory_value <$> enum RiskCategory).

(** * The lines of the recommendations *)

(** The portfolio-sizing line for a ceiling. *)
Definition allocation_line (ceiling : Q) : Py.fstring :=
  [Text "💰 Maximum allocation: "; Num ceiling ""; Text "% of portfolio"].

(** The two entry-timing cautions and the hedging suggestion. *)
Definition wait_line : Py.fstring :=
  lit "⏰ Consider waiting for risk factors to improve".
Definition fomo_line : Py.fstring := lit "⏰ Enter gradually to avoid FOMO".
Definition hedge_line : Py.fstring :=
  lit "🛡️ Consider IL hedging strategies or insurance".

(** The loop of [generate_recommendations] over the top three risks,
    from the lines gathered so far. *)
Definition top_mitigations (acc : list Py.fstring) (top : list RiskMetrics)
    : list Py.fstring :=
  foldl (fun recommendations metric =>
           if Py.gt (score metric) 6
           then recommendations ++ take 2 (mitigation metric)
           else recommendations) acc top.

(** The order the sort puts two neighbours in: scores do not increase. *)
Definition score_ge (a b : RiskMetrics) : Prop := score b <= score a.

(** * The degen helpers of the predictor ([apy-predictor.py]) *)

(** The two pure helpers of [DegenAPYPredictor]; [pool_data] is a
    dictionary like the one of the assessor.  The predictions themselves
    draw random numbers and are not modelled. *)
Module ApyPredictor.

Definition _calculate_degen_multiplier (pool_data : OpportunityRecord) : Q :=
  let multiplier := 1.0 in
  let multiplier :=
    if get_flag pool_data "is_new_pool" false then multiplier * 2.0
    else multiplier in
  let multiplier :=
    if Py.gt (get_num pool_data "emission_rate" 0) 1000 then multiplier * 1.5
    else multiplier in
  let multiplier :=
    if Py.gt (get_num pool_data "social_hype" 0) 0.8 then multiplier * 1.3
    else multiplier in
  let multiplier :=
    if get_flag pool_data "leverage_available" false then multiplier * 1.4
    else multiplier in
  Py.min multiplier 5.0.

Definition _get_degen_warnings (pool_data : OpportunityRecord) : list string :=
  let warnings : list string := [] in
  let warnings :=
    if negb (bool_decide (texts pool_data !! "audit_status" = Some "audited"))
    then warnings ++ ["âš ï¸ Unaudited protocol - high smart contract risk"]
    else warnings in
  let warnings :=
    if Py.lt (get_num pool_data "tvl" 0) 100000
    then warnings ++ ["âš ï¸ Low TVL - high liquidity risk"]
    else warnings in
  let warnings :=
    if get_flag pool_data "is_new_pool" false
    then warnings ++ ["âš ï¸ New pool - untested and volatile"]
    else warnings in
  let warnings :=
    if Py.gt (get_num pool_data "rug_risk_score" 0) 0.5
    then warnings ++ ["ğŸš¨ High rug risk detected"]
    else warnings in
  let warnings :=
    if get_flag pool_data "leverage_available" false
    then warnings ++ ["âš ï¸ Leverage available - liquidation risk"]
    else warnings in
  warnings.

End ApyPredictor.

(** * The HTTP layer ([api_server.py]) *)

Module Api.

(** What an endpoint caught; [str(e)] is not rendered. *)
Inductive error : Type :=
| TypeError (operation : string)
| AssessmentError (e : Py.exn)
| PredictorError (what : string).

Record HTTPException : Type := {
  status_code : Z;
  detail : error
}.

(** [try: ... except Exception as e: raise HTTPException(500, str(e))] *)
Definition guard {A : Type} (body : error + A) : HTTPException + A :=
  match body with
  | inl e => inl {| status_code := 500; detail := e |}
  | inr v => inr v
  end.

(** [PoolData], once validated: an optional field holds its default when
    the request leaves it out and [None] when the request sends null. *)
Record PoolData : Type := {
  current_apy : Q;
  tvl : Q;
  volume_24h : Q;
  volume_7d : option Q;
  token0_volatility : option Q;
  token1_volatility : option Q;
  correlation : option Q;
  is_new_pool : option bool;
  emission_rate : option Q;
  social_hype : option Q;
  audit_status : option string
}.

(** The pool of a request that gives the three required fields only. *)
Definition PoolData_defaults (current_apy tvl volume_24h : Q) : PoolData :=
  {| current_apy := current_apy;
     tvl := tvl;
     volume_24h := volume_24h;
     volume_7d := Some 0;
     token0_volatility := Some 0.1;
     token1_volatility := Some 0.1;
     correlation := Some 0.5;
     is_new_pool := Some false;
     emission_rate := Some 0;
     social_hype := Some 0.5;
     audit_status := Some "unaudited" |}.

Record RiskAssessmentRequest : Type := {
  pool_data : OpportunityRecord;
  chain : string;
  protocol : string
}.

(** A number that may be [None] as an operand of arithmetic or of a
    comparison. *)
Definition operand (v : option Q) (operation : string) : error + Q :=
  match v with
  | Some q => inr q
  | None => inl (TypeError operation)
  end.

(** ** [POST /predict/apy] *)
Module Apy.

(** What the endpoint reads of [apy_predictor.predict(data)]. *)
Record prediction : Type := {
  result_predicted_apy : Q;
  result_confidence_interval : Q * Q;
  result_horizon_days : Z
}.

Record response : Type := {
  success : bool;
  predicted_apy : Q;
  confidence_interval : Q * Q;
  horizon_days : Z;
  mock : option bool
}.

(** [apy_predictor] is [None] in mock mode and the loaded predictor
    otherwise; what its [predict] does is left open. *)
Definition predict_apy (apy_predictor : option (PoolData -> error + prediction))
    (pool_data : PoolData) : HTTPException + response :=
  guard
    match apy_predictor with
    | None =>
        let base_apy := current_apy pool_data in
        match operand (social_hype pool_data) "-" with
        | inl e => inl e
        | inr hype =>
            let predicted := base_apy * (1 + (hype - 0.5) * 0.2) in
            inr {| success := true;
                   predicted_apy := predicted;
                   confidence_interval := (predicted * 0.8, predicted * 1.2);
                   horizon_days := 7;
                   mock := Some true |}
        end
    | Some predict =>
        match predict pool_data with
        | inl e => inl e
        | inr result =>
            inr {| success := true;
                   predicted_apy := result_predicted_apy result;
                   confidence_interval := result_confidence_interval result;
                   horizon_days := result_horizon_days result;
                   mock := None |}
        end
    end.

End Apy.

(** ** [POST /predict/degen] *)
Module Degen.

(** What the endpoint reads of [degen_predictor.predict_degen(data)]. *)
Record prediction : Type := {
  result_predicted_apy : Q;
  result_base_apy : Q;
  result_degen_multiplier : Q;
  result_risk_level : string;
  result_warnings : list string
}.

Record response : Type := {
  success : bool;
  predicted_apy : Q;
  base_apy : Q;
  degen_multiplier : Q;
  risk_level : string;
  warnings : list string;
  mock : option bool
}.

Definition predict_degen_apy
    (degen_predictor : option (PoolData -> error + prediction))
    (pool_data : PoolData) : HTTPException + response :=
  guard
    match degen_predictor with
    | None =>
        let base_apy := current_apy pool_data in
        let multiplier :=
          if Py.get (is_new_pool pool_data) false then 2.0 else 1.5 in
        match operand (emission_rate pool_data) ">" with
        | inl e => inl e
        | inr emission =>
            let multiplier :=
              if Py.gt emission 100 then multiplier * 1.5 else multiplier in
            let predicted := base_apy * multiplier in
            let warnings : list string := [] in
            let warnings :=
              if negb (bool_decide (audit_status pool_data = Some "audited"))
              then warnings ++ ["⚠️ Unaudited protocol - high smart contract risk"]
              else warnings in
            let warnings :=
              if Py.lt (tvl pool_data) 100000
              then warnings ++ ["⚠️ Low TVL - high liquidity risk"]
              else warnings in
            inr {| success := true;
                   predicted_apy := predicted;
                   base_apy := base_apy;
                   degen_multiplier := multiplier;
                   risk_level := "EXTREME";
                   warnings := warnings;
                   mock := Some true |}
        end
    | Some predict_degen =>
        match predict_degen pool_data with
        | inl e => inl e
        | inr result =>
            inr {| success := true;
                   predicted_apy := result_predicted_apy result;
                   base_apy := result_base_apy result;
                   degen_multiplier := result_degen_multiplier result;
                   risk_level := result_risk_level result;
                   warnings := result_warnings result;
                   mock := None |}
        end
    end.

End Degen.

(** ** [POST /assess/risk] *)
Module Risk.

Record response : Type := {
  success : bool;
  overall_score : Q;
  risk_tier : string;
  recommendations : list Py.fstring;
  suitable_for : list string;
  max_allocation_percentage : Q;
  mock : option bool
}.

(** [{**request.pool_data, "chain": ..., "protocol": ...}]: the two keys
    are strings in the merged dictionary, whatever they were before. *)
Definition with_context (request : RiskAssessmentRequest) : OpportunityRecord :=
  let data := pool_data request in
  {| numbers := delete "protocol" (delete "chain" (numbers data));
     flags := delete "protocol" (delete "chain" (flags data));
     texts := <["protocol" := protocol request]>
                (<["chain" := chain request]> (texts data));
     labels := delete "protocol" (delete "chain" (labels data));
     audits := audits data |}.

(** A value of [pool_data]: the dictionary is not validated, and a key
    holds whatever the JSON body gives it. *)
Inductive entry : Type :=
| JNull
| JBool (b : bool)
| JNumber (q : Q)
| JString (s : string)
| JNested.

(** The number a value counts as in a comparison with a number: a
    boolean counts as 0 or 1; null, a string, a list and an object do
    not compare. *)
Definition number_of (value : entry) : option Q :=
  match value with
  | JNumber q => Some q
  | JBool b => Some (if b then 1 else 0)
  | JNull | JString _ | JNested => None
  end.

(** [value < bound] *)
Definition less_than (value : entry) (bound : Q) : error + bool :=
  match number_of value with
  | Some q => inr (Py.lt q bound)
  | None => inl (TypeError "<")
  end.

(** [value == text]: values of different types are different. *)
Definition equals (value : entry) (text : string) : bool :=
  match value with
  | JString s => String.eqb s text
  | _ => false
  end.

(** The mock assessment, from what [pool_data] holds under ['tvl'] and
    under ['audit_status']; [None] is an absent key. *)
Definition mock_assessment (tvl audit_status : option entry)
    : error + response :=
  let tvl := Py.get tvl (JNumber 0) in
  let audit_status := Py.get audit_status (JString "unaudited") in
  let risk_score := 5.0 in
  match
    match less_than tvl 100000 with
    | inl e => inl e
    | inr true => inr (risk_score + 3)
    | inr false =>
        match less_than tvl 1000000 with
        | inl e => inl e
        | inr true => inr (risk_score + 1)
        | inr false => inr risk_score
        end
    end
  with
  | inl e => inl e
  | inr risk_score =>
      let risk_score :=
        if equals audit_status "unaudited" then risk_score + 2
        else risk_score in
      let risk_tier :=
        if Py.lt risk_score 4 then "LOW"
        else if Py.lt risk_score 7 then "MEDIUM" else "HIGH" in
      inr {| success := true;
             overall_score := Py.min risk_score 10;
             risk_tier := risk_tier;
             recommendations :=
               [ [Text "💰 Maximum allocation: ";
                  Num (if Py.lt risk_score 7 then 15 else 5) "";
                  Text "% of portfolio"];
                 if Py.gt risk_score 6 then lit "⏰ Monitor position daily"
                 else lit "✅ Stable opportunity" ];
             suitable_for :=
               if Py.lt risk_score 7 then ["Aggressive"; "Degen"]
               else ["Degen"];
             max_allocation_percentage :=
               if Py.lt risk_score 7 then 15 else 5;
             mock := Some true |}
  end.

(** [risk_assessor_loaded] is false in mock mode.  The [pool_data] of a
    request is kept as the record the engine reads, in which ['tvl'] is a
    number and ['audit_status'] a string when they are there. *)
Definition assess_risk (risk_assessor_loaded : bool) (now : clock)
    (request : RiskAssessmentRequest) : HTTPException + response :=
  guard
    (if negb risk_assessor_loaded then
       mock_assessment
         (JNumber <$> numbers (pool_data request) !! "tvl")
         (JString <$> texts (pool_data request) !! "audit_status")
     else
       let opportunity_data := with_context request in
       match assess_opportunity now opportunity_data with
       | Raise e => inl (AssessmentError e)
       | Ok (Build_AssessmentResult score tier _ advice profiles ceiling) =>
           inr {| success := true;
                  overall_score := score;
                  risk_tier := tier;
                  recommendations := advice;
                  suitable_for := profiles;
                  max_allocation_percentage := ceiling;
                  mock := None |}
       end).

End Risk.

(** ** [POST /discover/opportunities] *)
Module Discover.

Record opportunity : Type := {
  id : string;
  chain : string;
  protocol : string;
  type : string;
  current_apy : Q;
  predicted_apy : Q;
  tvl : Q;
  risk_score : Q;
  description : string
}.

Record response : Type := {
  success : bool;
  count : nat;
  opportunities : list opportunity
}.

(** The simulated opportunities. *)
Definition simulated : list opportunity :=
  [ {| id := "eth-gmx-staking"; chain := "arbitrum"; protocol := "GMX";
       type := "staking"; current_apy := 25.5; predicted_apy := 28.3;
       tvl := 450000000; risk_score := 4.2;
       description := "GMX staking with esGMX rewards" |};
    {| id := "pendle-steth"; chain := "ethereum"; protocol := "Pendle";
       type := "yield-tokenization"; current_apy := 12.4;
       predicted_apy := 14.7; tvl := 280000000; risk_score := 3.8;
       description := "Pendle stETH yield tokenization" |};
    {| id := "beefy-pancake-bnb-usdt"; chain := "bsc"; protocol := "Beefy";
       type := "auto-compound"; current_apy := 45.2; predicted_apy := 42.1;
       tvl := 15000000; risk_score := 5.5;
       description := "Auto-compounding PancakeSwap LP" |};
    {| id := "convex-frax"; chain := "ethereum"; protocol := "Convex";
       type := "curve-boost"; current_apy := 18.9; predicted_apy := 20.2;
       tvl := 890000000; risk_score := 3.2;
       description := "Boosted Curve FRAX pool" |};
    {| id := "degen-new-protocol"; chain := "base"; protocol := "NewDegen";
       type := "liquidity-mining"; current_apy := 185.5;
       predicted_apy := 150.2; tvl := 2500000; risk_score := 8.5;
       description := "⚠️ HIGH RISK - New protocol with high emissions" |};
    {| id := "leveraged-aave-eth"; chain := "polygon"; protocol := "Aave";
       type := "leveraged"; current_apy := 35.8; predicted_apy := 38.2;
       tvl := 120000000; risk_score := 6.2;
       description := "3x leveraged ETH lending" |} ].

(** The test of the list comprehension. *)
Definition matches (min_apy max_risk : Q) (opp : opportunity) : bool :=
  Py.ge (current_apy opp) min_apy && Py.le (risk_score opp) max_risk.

(** An argument left out takes its default: 10 and 7. *)
Definition discover_opportunities (min_apy max_risk : option Q)
    : HTTPException + response :=
  let min_apy := Py.get min_apy 10 in
  let max_risk := Py.get max_risk 7 in
  guard
    (let opportunities := simulated in
     let filtered :=
       List.filter (matches min_apy max_risk) opportunities in
     inr {| success := true;
            count := length filtered;
            opportunities := filtered |}).

End Discover.

End Api.

(** * Comparisons *)

Lemma gt_true (x y : Q) : Py.gt x y = true <-> y < x.
Proof.
  unfold Py.gt. rewrite negb_true_iff, <- not_true_iff_false, Qle_bool_iff.
  split; [apply Qnot_le_lt | apply Qlt_not_le].
Qed.

Lemma gt_false (x y : Q) : Py.gt x y = false <-> x <= y.
Proof. unfold Py.gt. by rewrite negb_false_iff, Qle_bool_iff. Qed.

Lemma lt_true (x y : Q) : Py.lt x y = true <-> x < y.
Proof. apply gt_true. Qed.

Lemma lt_false (x y : Q) : Py.lt x y = false <-> y <= x.
Proof. apply gt_false. Qed.

Lemma gt_cases (x y : Q) :
  (Py.gt x y = true /\ y < x) \/ (Py.gt x y = false /\ x <= y).
Proof.
  destruct (Py.gt x y) eqn:E; [left | right]; split; try done.
  - by apply gt_true.
  - by apply gt_false.
Qed.

Lemma lt_cases (x y : Q) :
  (Py.lt x y = true /\ x < y) \/ (Py.lt x y = false /\ y <= x).
Proof. apply gt_cases. Qed.

Lemma le_cases (x y : Q) :
  (Py.le x y = true /\ x <= y) \/ (Py.le x y = false /\ y < x).
Proof.
  destruct (gt_cases x y) as [[E H]|[E H]]; [right | left];
    (split; [| done]); unfold Py.gt in E; unfold Py.le.
  - by apply negb_true_iff.
  - by apply negb_false_iff.
Qed.

Lemma ge_cases (x y : Q) :
  (Py.ge x y = true /\ y <= x) \/ (Py.ge x y = false /\ x < y).
Proof. apply le_cases. Qed.

#[global] Instance gt_proper : Proper (Qeq ==> Qeq ==> eq) Py.gt.
Proof.
  intros x x' Hx y y' Hy.
  destruct (gt_cases x y) as [[-> H]|[-> H]]; symmetry.
  - apply gt_true. by rewrite <- Hx, <- Hy.
  - apply gt_false. by rewrite <- Hx, <- Hy.
Qed.

#[global] Instance lt_proper : Proper (Qeq ==> Qeq ==> eq) Py.lt.
Proof. intros x x' Hx y y' Hy. unfold Py.lt. by apply gt_proper. Qed.

Lemma lt_at (x x' y : Q) : x == x' -> Py.lt x y = Py.lt x' y.
Proof. intros H. by apply lt_proper. Qed.

Lemma gt_at (x x' y : Q) : x == x' -> Py.gt x y = Py.gt x' y.
Proof. intros H. by apply gt_proper. Qed.

Lemma min_cases (a b : Q) :
  (a <= b /\ Py.min a b == a) \/ (b <= a /\ Py.min a b == b).
Proof. apply Q.min_spec_le. Qed.

Lemma max_cases (a b : Q) :
  (a <= b /\ Py.max a b == b) \/ (b <= a /\ Py.max a b == a).
Proof. apply Q.max_spec_le. Qed.

(** Case analysis on every [min] and [max] of the goal and of the
    hypotheses; each is then a variable with its defining inequalities. *)
Ltac split_min a b :=
  let H := fresh "Hmin" in
  let E := fresh "Emin" in
  destruct (min_cases a b) as [[H E]|[H E]];
  generalize dependent (Py.min a b); intros.

Ltac split_max a b :=
  let H := fresh "Hmax" in
  let E := fresh "Emax" in
  destruct (max_cases a b) as [[H E]|[H E]];
  generalize dependent (Py.max a b); intros.

Ltac split_minmax :=
  repeat match goal with
  | |- context [Py.min ?a ?b] => split_min a b
  | |- context [Py.max ?a ?b] => split_max a b
  | _ : context [Py.min ?a ?b] |- _ => split_min a b
  | _ : context [Py.max ?a ?b] |- _ => split_max a b
  end.

(** Case analysis on every comparison of the goal. *)
Ltac case_gt :=
  repeat match goal with
  | |- context [Py.gt ?a ?b] =>
      let H := fresh "Hgt" in
      destruct (gt_cases a b) as [[-> H]|[-> H]]
  | |- context [Py.lt ?a ?b] =>
      let H := fresh "Hlt" in
      destruct (lt_cases a b) as [[-> H]|[-> H]]
  | |- context [Py.le ?a ?b] =>
      let H := fresh "Hle" in
      destruct (le_cases a b) as [[-> H]|[-> H]]
  | |- context [Py.ge ?a ?b] =>
      let H := fresh "Hge" in
      destruct (ge_cases a b) as [[-> H]|[-> H]]
  end.

(** * Smart-contract risk: the blocks and the loop *)

Lemma audit_firms_range (firm : string) (r : Q) :
  audit_firms !! firm = Some r -> 0.75 <= r <= 0.9.
Proof.
  intros H. apply elem_of_list_to_map_2 in H.
  repeat (apply elem_of_cons in H as [[= _ ->]|H]; [lra |]).
  by apply elem_of_nil in H.
Qed.

Lemma timedelta_days_nonneg (later earlier : Z) :
  (earlier <= later)%Z -> (0 <= timedelta_days later earlier)%Z.
Proof.
  intros H. unfold timedelta_days, ns_per_day. apply Z.div_pos; lia.
Qed.

Lemma age_factor_range (d : Z) :
  (0 <= d)%Z -> 0.5 <= Py.max 0.5 (1 - inject_Z d / 365) <= 1.
Proof.
  intros Hd.
  assert (0 <= inject_Z d) as Hq by (rewrite Zle_Qle in Hd; exact Hd).
  assert (0 <= inject_Z d / 365) by (apply Qle_shift_div_l; lra).
  split_minmax; lra.
Qed.

Lemma audit_score_range (r : Q) (d : Z) :
  0.75 <= r <= 0.9 -> (0 <= d)%Z ->
  1 <= (1 - r * Py.max 0.5 (1 - inject_Z d / 365)) * 10 <= 10.
Proof.
  intros Hr Hd. pose proof (age_factor_range d Hd) as Ha.
  generalize dependent (Py.max 0.5 (1 - inject_Z d / 365)). intros a Ha.
  nra.
Qed.

(** ** The blocks after the audit check *)

(** Each block extends the mitigations, leaves the factor of the audit
    check alone and moves the running score within known bounds. *)
Section blocks.
Context (data : OpportunityRecord) (a : Q).
Context (f : gmap string factor) (m : list Py.fstring).

Lemma check_bug_bounty_spec :
  exists a' f' rest,
    check_bug_bounty data a (f, m) = (a', (f', m ++ rest))
    /\ f' !! "audit_quality" = f !! "audit_quality"
    /\ (0 <= a -> 0.8 * a <= a' <= a).
Proof.
  unfold check_bug_bounty. case_gt.
  all: do 3 eexists; split;
    [first [reflexivity | by rewrite (app_nil_r m)] |];
    split; [by rewrite lookup_insert_ne | intros; lra].
Qed.

Lemma check_contract_age_spec :
  exists a' f' rest,
    check_contract_age data a (f, m) = (a', (f', m ++ rest))
    /\ f' !! "audit_quality" = f !! "audit_quality"
    /\ (0 <= a -> 0.7 * a <= a' <= a).
Proof.
  unfold check_contract_age. case_gt.
  all: do 3 eexists; split;
    [first [reflexivity | by rewrite (app_nil_r m)] |];
    split; [by rewrite lookup_insert_ne | intros; lra].
Qed.

Lemma check_known_vulnerabilities_spec :
  exists a' rest,
    check_known_vulnerabilities data a (f, m) = (a', (f, m ++ rest))
    /\ (a <= 10 -> a <= a' <= 10).
Proof.
  unfold check_known_vulnerabilities. case_gt.
  all: do 2 eexists; split;
    [first [reflexivity | by rewrite (app_nil_r m)] |].
  all: intros; split_minmax; lra.
Qed.

Lemma check_upgrade_mechanism_spec :
  exists a' f' rest,
    check_upgrade_mechanism data a (f, m) = Ok (a', (f', m ++ rest))
    /\ f' !! "audit_quality" = f !! "audit_quality"
    /\ (a <= 10 -> a <= a' <= 10).
Proof.
  unfold check_upgrade_mechanism, get_num.
  destruct (get_flag data "upgradeable" false).
  - destruct (numbers data !! "timelock_days") as [t|] eqn:E; cbn [Py.get].
    + case_gt; do 3 eexists; (split; [reflexivity |]);
        (split; [by rewrite lookup_insert_ne |]);
        intros; split_minmax; lra.
    + destruct (gt_cases 0 2) as [[_ ?]|[-> _]]; [lra |].
      do 3 eexists; (split; [reflexivity |]);
        (split; [by rewrite lookup_insert_ne |]);
        intros; split_minmax; lra.
  - do 3 eexists; (split; [reflexivity |]);
      (split; [by rewrite lookup_insert_ne |]); intros; lra.
Qed.

End blocks.

Lemma smart_contract_after_audit now data a f m :
  check_audit_status now data (∅, []) = Ok (a, (f, m)) ->
  exists rm,
    assess_smart_contract_risk now data = Ok rm
    /\ category rm = SMART_CONTRACT
    /\ confidence rm = 0.85
    /\ factors rm !! "audit_quality" = f !! "audit_quality"
    /\ (exists rest, mitigation rm = m ++ rest)
    /\ (0 <= a <= 10 -> 0.56 * a <= score rm <= 10).
Proof.
  intros Haudit. unfold assess_smart_contract_risk. rewrite Haudit.
  cbn [mbind result_bind Py.bind].
  destruct (check_bug_bounty_spec data a f m) as (a1 & f1 & r1 & -> & Hf1 & Ha1).
  destruct (check_contract_age_spec data a1 f1 (m ++ r1))
    as (a2 & f2 & r2 & -> & Hf2 & Ha2).
  destruct (check_known_vulnerabilities_spec data a2 f2 ((m ++ r1) ++ r2))
    as (a3 & r3 & -> & Ha3).
  destruct (check_upgrade_mechanism_spec data a3 f2 (((m ++ r1) ++ r2) ++ r3))
    as (a4 & f4 & r4 & -> & Hf4 & Ha4).
  cbn [mbind result_bind Py.bind mret result_ret].
  eexists. split; [reflexivity |]. cbn [category confidence factors mitigation score].
  repeat split.
  - by rewrite Hf4, Hf2, Hf1.
  - exists (r1 ++ r2 ++ r3 ++ r4). by rewrite <- !app_assoc.
  - split_minmax; lra.
  - apply Q.le_min_l.
Qed.

Lemma smart_contract_audit_raises now data e :
  check_audit_status now data (∅, []) = Raise e ->
  assess_smart_contract_risk now data = Raise e.
Proof. intros H. unfold assess_smart_contract_risk. by rewrite H. Qed.

(** ** The loop over the audits *)

Lemma audit_loop_ok_iff now l : forall k best,
  is_ok (audit_loop now k l best) <-> Forall dated l.
Proof.
  induction l as [|a l IH]; intros k best; cbn [audit_loop].
  - split; [constructor | by eexists].
  - rewrite Forall_cons. unfold dated at 1, recognised.
    destruct (audit_firms !! Py.lower (Py.get (audit_firm a) "")) as [r|] eqn:Ef.
    + destruct (audit_date a) as [[t|t| |]|]; cbn.
      * rewrite IH.
        split; [intros H; split; [right; by eexists | done] | by intros [_ H]].
      * split; [by intros [? ?] |].
        intros [H _]. by destruct H as [[=]|[? [=]]].
      * rewrite IH. split; [intros H; split; [by left | done] | by intros [_ H]].
      * split; [by intros [? ?] |].
        intros [H _]. by destruct H as [[=]|[? [=]]].
      * split; [by intros [? ?] |].
        intros [H _]. by destruct H as [[=]|[? [=]]].
    + rewrite IH. split; [intros H; split; [by intros [? ?] | done] | by intros [_ H]].
Qed.

Lemma audit_loop_range now l : forall k best,
  Forall (past now) l -> 1 <= best <= 10 ->
  exists q, audit_loop now k l best = Ok q /\ 1 <= q <= 10.
Proof.
  induction l as [|a l IH]; intros k best Hl Hb; cbn [audit_loop].
  - by exists best.
  - apply Forall_cons in Hl as [Ha Hl]. unfold past, recognised in Ha.
    destruct (audit_firms !! Py.lower (Py.get (audit_firm a) "")) as [r|] eqn:Ef.
    + destruct Ha as (t & -> & Ht); [by eexists |]. cbn.
      apply IH; [done |].
      pose proof (audit_score_range r (timedelta_days (now k) t)
                    (audit_firms_range _ _ Ef)
                    (timedelta_days_nonneg _ _ (Ht k))).
      split_minmax; lra.
    + by apply IH.
Qed.

Lemma audit_loop_same_ages now1 now2 l : forall k best,
  (forall j a t,
     filter recognised l !! j = Some a ->
     audit_date a = Some (Parseable t) ->
     timedelta_days (now1 (k + j)%nat) t = timedelta_days (now2 (k + j)%nat) t) ->
  audit_loop now1 k l best = audit_loop now2 k l best.
Proof.
  induction l as [|a l IH]; intros k best H; cbn [audit_loop]; [done |].
  destruct (decide (recognised a)) as [Hr|Hr].
  - rewrite (filter_cons_True _ _ _ Hr) in H. destruct Hr as [r Hr]. rewrite Hr.
    assert (forall j a' t',
              filter recognised l !! j = Some a' ->
              audit_date a' = Some (Parseable t') ->
              timedelta_days (now1 (S k + j)%nat) t'
              = timedelta_days (now2 (S k + j)%nat) t') as Hrest.
    { intros j a' t' Hj Hd.
      replace (S k + j)%nat with (k + S j)%nat by lia. by apply (H (S j) a' t'). }
    destruct (audit_date a) as [[t|t| |]|] eqn:Ed; cbn; try done.
    + pose proof (H 0%nat a t eq_refl Ed) as H0.
      rewrite Nat.add_0_r in H0. rewrite H0. by apply IH.
    + by apply IH.
  - rewrite (filter_cons_False _ _ _ Hr) in H.
    unfold recognised in Hr. rewrite <- eq_None_not_Some in Hr. rewrite Hr.
    by apply IH.
Qed.

Lemma audit_loop_raises now l : forall k best e,
  audit_loop now k l best = Raise e ->
  e = KeyError "date" \/ e = ValueError "date" \/ e = Py.TypeError "-".
Proof.
  induction l as [|a l IH]; intros k best e; cbn [audit_loop]; [done |].
  destruct (audit_firms !! _); [| apply IH].
  destruct (audit_date a) as [[t|t| |]|]; cbn.
  - apply IH.
  - intros [= <-]. by right; right.
  - apply IH.
  - intros [= <-]. by right; left.
  - intros [= <-]. by left.
Qed.

(** * Ranges of the scores *)

(** Replace every absolute value by a nonnegative variable. *)
Ltac abstract_abs :=
  repeat match goal with
  | |- context [Py.abs ?a] =>
      let H := fresh "Habs" in
      pose proof (Qabs_nonneg a : 0 <= Py.abs a) as H;
      generalize dependent (Py.abs a); intros
  end.

Lemma impermanent_loss_range data :
  0 <= get_num data "token1_volatility" 0.5 ->
  0 <= get_num data "token2_volatility" 0.5 ->
  Py.abs (get_num data "token_correlation" 0) <= 1 ->
  0 <= score (assess_impermanent_loss_risk data) <= 10.
Proof.
  intros H1 H2 Hc. unfold assess_impermanent_loss_risk.
  destruct (get_flag data "is_lp_position" false); cbn [negb score]; [| lra].
  generalize dependent (get_num data "token1_volatility" 0.5).
  generalize dependent (get_num data "token2_volatility" 0.5).
  intros v2 H2 v1 H1.
  assert ((v1 + v2) / 2 * 20 == (v1 + v2) * 10) as Havg by field.
  abstract_abs.
  destruct (get_flag data "il_protection" false),
    (get_flag data "is_stable_pair" false),
    (get_flag data "concentrated_liquidity" false); cbn [score];
    split_minmax; lra.
Qed.

Lemma liquidity_range data : 0 <= score (assess_liquidity_risk data) <= 10.
Proof.
  unfold assess_liquidity_risk.
  generalize (get_num data "volume_24h" 0 / get_num data "tvl" 0). intros turnover.
  assert (get_num data "lock_period_days" 0 / 10 * 10
          == get_num data "lock_period_days" 0) as Hlock by field.
  case_gt; cbn [score]; split_minmax; lra.
Qed.

Lemma protocol_range data : 0 <= score (assess_protocol_risk data) <= 10.
Proof.
  unfold assess_protocol_risk.
  destruct (get_flag data "team_doxxed" false);
    case_gt; cbn [score]; split_minmax; lra.
Qed.

Lemma market_range data : 0 <= score (assess_market_risk data) <= 10.
Proof.
  unfold assess_market_risk.
  generalize (get_labels data "token_types" []). intros token_types.
  destruct (Py.contains "stablecoin" token_types),
    (Py.contains "bluechip" token_types),
    (Py.contains "altcoin" token_types),
    (get_flag data "sensitive_to_rates" false);
    case_gt; cbn [score]; lra.
Qed.

Lemma regulatory_range data : 0 <= score (assess_regulatory_risk data) <= 10.
Proof.
  unfold assess_regulatory_risk.
  destruct (Py.contains "US" (get_labels data "restricted_regions" [])),
    (get_flag data "kyc_required" false),
    (get_flag data "potential_security" false); cbn [score]; lra.
Qed.

Lemma oracle_scores_range (provider : string) :
  2 <= Py.get (oracle_scores !! provider) 9 <= 9.
Proof.
  destruct (oracle_scores !! provider) as [r|] eqn:H; cbn [Py.get]; [| lra].
  apply elem_of_list_to_map_2 in H.
  repeat (apply elem_of_cons in H as [[= _ ->]|H]; [lra |]).
  by apply elem_of_nil in H.
Qed.

Lemma bridge_scores_range (provider : string) :
  2 <= Py.get (bridge_scores !! provider) 9 <= 9.
Proof.
  destruct (bridge_scores !! provider) as [r|] eqn:H; cbn [Py.get]; [| lra].
  apply elem_of_list_to_map_2 in H.
  repeat (apply elem_of_cons in H as [[= _ ->]|H]; [lra |]).
  by apply elem_of_nil in H.
Qed.

Lemma oracle_range data : 0 <= score (assess_oracle_risk data) <= 10.
Proof.
  unfold assess_oracle_risk.
  pose proof (oracle_scores_range
                (Py.lower (get_text data "oracle_provider" "unknown"))) as Hr.
  generalize dependent
    (Py.get (oracle_scores !! Py.lower (get_text data "oracle_provider" "unknown")) 9).
  intros r Hr.
  destruct (get_flag data "multi_oracle" false),
    (get_flag data "twap_enabled" false); cbn [score]; lra.
Qed.

Lemma bridge_range data : 0 <= score (assess_bridge_risk data) <= 10.
Proof.
  unfold assess_bridge_risk.
  destruct (get_flag data "uses_bridge" false); cbn [negb score]; [| lra].
  pose proof (bridge_scores_range
                (Py.lower (get_text data "bridge_provider" "unknown"))) as Hr.
  generalize dependent
    (Py.get (bridge_scores !! Py.lower (get_text data "bridge_provider" "unknown")) 9).
  intros r Hr.
  destruct (get_flag data "bridge_hacked_before" false);
    case_gt; cbn [score]; split_minmax; lra.
Qed.

(** * The audit check as a whole *)

Lemma check_audit_status_empty now data :
  audit_list data = [] ->
  check_audit_status now data (∅, [])
  = Ok (10, (<["audit_quality" := FNum 0]> ∅,
             [lit "⚠️ Get protocol audited by reputable firm"])).
Proof.
  unfold audit_list, check_audit_status.
  destruct (audits data) as [[|a l]|]; cbn [Py.get]; by intros.
Qed.

Lemma check_audit_status_loop now data :
  audit_list data <> [] ->
  check_audit_status now data (∅, [])
  = (q ← audit_loop now 0 (audit_list data) 10;
     mret (q, (<["audit_quality" := FNum (10 - q)]> ∅,
               if Py.lt q 3
               then [lit "Multiple reputable audits completed"] else []))).
Proof.
  unfold audit_list, check_audit_status.
  by destruct (audits data) as [[|a l]|]; cbn [Py.get].
Qed.

Lemma check_audit_status_ok_iff now data :
  is_ok (check_audit_status now data (∅, [])) <-> Forall dated (audit_list data).
Proof.
  destruct (decide (audit_list data = [])) as [E|E].
  - rewrite (check_audit_status_empty _ _ E), E.
    split; [constructor | by eexists].
  - rewrite (check_audit_status_loop _ _ E).
    rewrite <- (audit_loop_ok_iff now (audit_list data) 0 10).
    destruct (audit_loop now 0 (audit_list data) 10); cbn.
    + split; by eexists.
    + split; by intros [? ?].
Qed.

Lemma check_audit_status_range now data :
  Forall (past now) (audit_list data) ->
  exists a f m,
    check_audit_status now data (∅, []) = Ok (a, (f, m)) /\ 1 <= a <= 10.
Proof.
  intros H. destruct (decide (audit_list data = [])) as [E|E].
  - rewrite (check_audit_status_empty _ _ E). do 3 eexists. split; [done | lra].
  - rewrite (check_audit_status_loop _ _ E).
    destruct (audit_loop_range now (audit_list data) 0 10 H) as (q & -> & Hq);
      [lra |].
    cbn. by do 3 eexists.
Qed.

Lemma check_audit_status_raises now data e :
  check_audit_status now data (∅, []) = Raise e ->
  e = KeyError "date" \/ e = ValueError "date" \/ e = Py.TypeError "-".
Proof.
  destruct (decide (audit_list data = [])) as [E|E].
  - by rewrite (check_audit_status_empty _ _ E).
  - rewrite (check_audit_status_loop _ _ E).
    destruct (audit_loop now 0 (audit_list data) 10) as [q|e'] eqn:El; [done |].
    intros [= <-]. by apply (audit_loop_raises _ _ _ _ _ El).
Qed.

Lemma check_audit_status_same_ages now1 now2 data :
  same_audit_ages now1 now2 data ->
  check_audit_status now1 data (∅, []) = check_audit_status now2 data (∅, []).
Proof.
  intros H. destruct (decide (audit_list data = [])) as [E|E].
  - by rewrite !(check_audit_status_empty _ _ E).
  - rewrite !(check_audit_status_loop _ _ E).
    by rewrite (audit_loop_same_ages now1 now2 (audit_list data) 0 10 H).
Qed.

(** * Structure of the entry point *)

Lemma smart_contract_ok_iff now data :
  is_ok (assess_smart_contract_risk now data) <-> Forall dated (audit_list data).
Proof.
  rewrite <- (check_audit_status_ok_iff now). split.
  - intros [rm H].
    destruct (check_audit_status now data (∅, [])) as [v|e] eqn:E; [by eexists |].
    by rewrite (smart_contract_audit_raises _ _ _ E) in H.
  - intros [[a [f m]] H].
    destruct (smart_contract_after_audit _ _ _ _ _ H) as (rm & -> & _).
    by eexists.
Qed.

Lemma smart_contract_header now data rm :
  assess_smart_contract_risk now data = Ok rm ->
  category rm = SMART_CONTRACT /\ confidence rm = 0.85.
Proof.
  intros H.
  destruct (check_audit_status now data (∅, [])) as [[a [f m]]|e] eqn:E.
  - destruct (smart_contract_after_audit _ _ _ _ _ E) as (rm' & H' & ? & ? & _).
    rewrite H in H'. by injection H' as <-.
  - by rewrite (smart_contract_audit_raises _ _ _ E) in H.
Qed.

Lemma smart_contract_same_ages now1 now2 data :
  same_audit_ages now1 now2 data ->
  assess_smart_contract_risk now1 data = assess_smart_contract_risk now2 data.
Proof.
  intros H. unfold assess_smart_contract_risk.
  by rewrite (check_audit_status_same_ages _ _ _ H).
Qed.

Lemma assess_categories_eq now data :
  assess_categories now data
  = (sc ← assess_smart_contract_risk now data; mret (sc :: other_metrics data)).
Proof. reflexivity. Qed.

Lemma assess_categories_inv now data ms :
  assess_categories now data = Ok ms ->
  exists sc,
    assess_smart_contract_risk now data = Ok sc /\ ms = sc :: other_metrics data.
Proof.
  rewrite assess_categories_eq.
  destruct (assess_smart_contract_risk now data) as [sc|e]; [| done].
  intros [= <-]. by exists sc.
Qed.

Lemma assess_opportunity_inv now data r :
  assess_opportunity now data = Ok r ->
  exists ms,
    assess_categories now data = Ok ms
    /\ overall_score r = calculate_overall_risk ms
    /\ risk_metrics r = by_category ms.
Proof.
  unfold assess_opportunity.
  destruct (assess_categories now data) as [ms|e]; [| done].
  cbn. intros [= <-]. by exists ms.
Qed.

Lemma assess_opportunity_ok_iff now data :
  is_ok (assess_opportunity now data) <-> Forall dated (audit_list data).
Proof.
  rewrite <- (smart_contract_ok_iff now). unfold assess_opportunity.
  rewrite assess_categories_eq.
  destruct (assess_smart_contract_risk now data);
    cbn [mbind result_bind Py.bind].
  - split; intros _; eexists; reflexivity.
  - split; by intros [? ?].
Qed.

(** * Categories and confidences of the assessors *)

(** Case analysis on every condition of the goal. *)
Ltac case_if :=
  repeat match goal with
  | |- context [if ?c then _ else _] => destruct c
  end.

Lemma impermanent_loss_header data :
  category (assess_impermanent_loss_risk data) = IMPERMANENT_LOSS
  /\ 0.7 <= confidence (assess_impermanent_loss_risk data) <= 1.
Proof.
  unfold assess_impermanent_loss_risk.
  case_if; cbn [category confidence]; split; (done || lra).
Qed.

Lemma liquidity_header data :
  category (assess_liquidity_risk data) = LIQUIDITY
  /\ confidence (assess_liquidity_risk data) = 0.9.
Proof. unfold assess_liquidity_risk. by case_if. Qed.

Lemma protocol_header data :
  category (assess_protocol_risk data) = PROTOCOL
  /\ confidence (assess_protocol_risk data) = 0.85.
Proof. unfold assess_protocol_risk. by case_if. Qed.

Lemma market_header data :
  category (assess_market_risk data) = MARKET
  /\ confidence (assess_market_risk data) = 0.75.
Proof. unfold assess_market_risk. by case_if. Qed.

Lemma regulatory_header data :
  category (assess_regulatory_risk data) = REGULATORY
  /\ confidence (assess_regulatory_risk data) = 0.7.
Proof. unfold assess_regulatory_risk. by case_if. Qed.

Lemma oracle_header data :
  category (assess_oracle_risk data) = ORACLE
  /\ confidence (assess_oracle_risk data) = 0.8.
Proof. unfold assess_oracle_risk. by case_if. Qed.

Lemma bridge_header data :
  category (assess_bridge_risk data) = BRIDGE
  /\ 0.7 <= confidence (assess_bridge_risk data) <= 1.
Proof.
  unfold assess_bridge_risk.
  case_if; cbn [category confidence]; split; (done || lra).
Qed.

Lemma other_metrics_categories data :
  category <$> other_metrics data
  = [IMPERMANENT_LOSS; LIQUIDITY; PROTOCOL; MARKET; REGULATORY; ORACLE; BRIDGE].
Proof.
  unfold other_metrics. cbn [fmap list_fmap].
  by rewrite (proj1 (impermanent_loss_header data)),
    (proj1 (liquidity_header data)), (proj1 (protocol_header data)),
    (proj1 (market_header data)), (proj1 (regulatory_header data)),
    (proj1 (oracle_header data)), (proj1 (bridge_header data)).
Qed.

Lemma other_metrics_confidence data :
  Forall (fun m => 0.7 <= confidence m <= 1) (other_metrics data).
Proof.
  unfold other_metrics.
  pose proof (proj2 (impermanent_loss_header data)).
  pose proof (proj2 (bridge_header data)).
  repeat (constructor; [first [done |
    rewrite ?(proj2 (liquidity_header data)), ?(proj2 (protocol_header data)),
      ?(proj2 (market_header data)), ?(proj2 (regulatory_header data)),
      ?(proj2 (oracle_header data)); lra] |]).
  constructor.
Qed.

Lemma other_metrics_scores data :
  0 <= get_num data "token1_volatility" 0.5 ->
  0 <= get_num data "token2_volatility" 0.5 ->
  Py.abs (get_num data "token_correlation" 0) <= 1 ->
  Forall (fun m => 0 <= score m <= 10) (other_metrics data).
Proof.
  intros H1 H2 Hc. unfold other_metrics.
  repeat (constructor; [first
    [ by apply impermanent_loss_range | apply liquidity_range
    | apply protocol_range | apply market_range | apply regulatory_range
    | apply oracle_range | apply bridge_range ] |]).
  constructor.
Qed.

(** * The dictionary of metrics *)

#[global] Instance RiskCategory_value_inj : Inj (=) (=) RiskCategory_value.
Proof. intros [] []; by intros [=]. Qed.

Lemma by_category_snoc ms m :
  by_category (ms ++ [m])
  = <[RiskCategory_value (category m) := m]> (by_category ms).
Proof. unfold by_category. by rewrite foldl_app. Qed.

Lemma by_category_lookup ms : NoDup (category <$> ms) ->
  forall key rm,
    by_category ms !! key = Some rm
    <-> rm ∈ ms /\ RiskCategory_value (category rm) = key.
Proof.
  induction ms as [|m ms IH] using rev_ind; intros Hnd key rm.
  - unfold by_category. cbn. rewrite lookup_empty, elem_of_nil.
    split; [done | by intros [[] _]].
  - rewrite fmap_app, NoDup_app in Hnd. destruct Hnd as (Hnd & Hfresh & _).
    rewrite by_category_snoc, lookup_insert_Some, (IH Hnd), elem_of_app,
      list_elem_of_singleton.
    split.
    + intros [[<- <-]|[Hne [Hin <-]]]; [by split; [right |] | by split; [left |]].
    + intros [[Hin | ->] <-]; [right | by left].
      split; [| done]. intros Heq. apply (inj _) in Heq.
      apply (Hfresh (category rm)); [by apply list_elem_of_fmap_2 |].
      cbn. rewrite Heq. by left.
Qed.

(** * The loop of the aggregator *)

Lemma risk_weights_lookup (c : RiskCategory) :
  risk_weights !! c = Some (spec_weight c).
Proof. by destruct c. Qed.

Lemma accumulate_spec ms : forall ts tw,
  (foldl accumulate (ts, tw) ms).1 == ts + spec_numerator ms
  /\ (foldl accumulate (ts, tw) ms).2 == tw + spec_denominator ms.
Proof.
  unfold spec_numerator, spec_denominator.
  induction ms as [|m ms IH]; intros ts tw; cbn [foldl sum_over foldr fst snd].
  - split; lra.
  - unfold accumulate at 2 4. rewrite risk_weights_lookup. cbn [Py.get].
    destruct (IH (ts + score m * spec_weight (category m) * confidence m)
                 (tw + spec_weight (category m) * confidence m)) as [-> ->].
    fold (sum_over (fun m => score m * spec_weight (category m) * confidence m) ms).
    fold (sum_over (fun m => spec_weight (category m) * confidence m) ms).
    split; lra.
Qed.

Lemma calculate_overall_risk_positive ms :
  0 < spec_denominator ms ->
  Py.gt (foldl accumulate (0, 0) ms).2 0 = true
  /\ calculate_overall_risk ms == spec_numerator ms / spec_denominator ms.
Proof.
  intros Hpos. unfold calculate_overall_risk.
  destruct (accumulate_spec ms 0 0) as [Hs Hw].
  destruct (foldl accumulate (0, 0) ms) as [ts tw]. cbn [fst snd] in *.
  assert (Py.gt tw 0 = true) as -> by (apply gt_true; lra).
  split; [done |]. rewrite Hs, Hw. field. lra.
Qed.

Lemma calculate_overall_risk_degenerate ms :
  spec_denominator ms == 0 -> calculate_overall_risk ms == 5.
Proof.
  intros Hz. unfold calculate_overall_risk.
  destruct (accumulate_spec ms 0 0) as [_ Hw].
  destruct (foldl accumulate (0, 0) ms) as [ts tw]. cbn [fst snd] in *.
  assert (Py.gt tw 0 = false) as -> by (apply gt_false; lra).
  reflexivity.
Qed.

Lemma spec_denominator_positive sc data :
  category sc = SMART_CONTRACT -> confidence sc = 0.85 ->
  0 < spec_denominator (sc :: other_metrics data).
Proof.
  intros Hc Hconf.
  pose proof (other_metrics_categories data) as Hcat.
  pose proof (other_metrics_confidence data) as Hcf.
  unfold other_metrics in *. cbn [fmap list_fmap] in Hcat.
  injection Hcat as C1 C2 C3 C4 C5 C6 C7.
  repeat (apply Forall_cons in Hcf as [? Hcf]).
  unfold spec_denominator, sum_over. cbn [foldr].
  rewrite Hc, Hconf, C1, C2, C3, C4, C5, C6, C7. cbn [spec_weight]. lra.
Qed.

(** * Classification at the boundaries *)

(** C3, as stated, fails: a score of exactly 4 is not classified LOW
    with the four-profile suitability set and the 25% ceiling. *)
Lemma boundary_four_not_low :
  ~ (determine_risk_tier 4 = "LOW"
     /\ determine_suitability 4 = ["Conservative"; "Moderate"; "Aggressive"; "Degen"]
     /\ calculate_max_allocation 4 == 25).
Proof. intros (Htier & _ & _). vm_compute in Htier. discriminate. Qed.

(** C3 (amended): every comparison of the classifier is [score < threshold],
    so a score equal to a boundary falls on the higher-risk side of it:
    2 is LOW with ceiling 25, 4 is MEDIUM with ceiling 15 and three
    profiles, 6 is HIGH with ceiling 8 and two profiles, 8 is EXTREME with
    ceiling 3 and one profile.  Suitability has no breakpoint at 2. *)
Theorem boundary_scores_take_higher_tier (s : Q) :
  (s == 2 ->
     determine_risk_tier s = "LOW"
     /\ determine_suitability s = ["Conservative"; "Moderate"; "Aggressive"; "Degen"]
     /\ calculate_max_allocation s = 25)
  /\ (s == 4 ->
     determine_risk_tier s = "MEDIUM"
     /\ determine_suitability s = ["Moderate"; "Aggressive"; "Degen"]
     /\ calculate_max_allocation s = 15)
  /\ (s == 6 ->
     determine_risk_tier s = "HIGH"
     /\ determine_suitability s = ["Aggressive"; "Degen"]
     /\ calculate_max_allocation s = 8)
  /\ (s == 8 ->
     determine_risk_tier s = "EXTREME"
     /\ determine_suitability s = ["Degen"]
     /\ calculate_max_allocation s = 3).
Proof.
  unfold determine_risk_tier, determine_suitability, calculate_max_allocation.
  repeat split; rewrite !(lt_at s _ _ H); reflexivity.
Qed.

Lemma boundary_scores_take_higher_tier_witness :
  (4 # 1) == 4
  /\ determine_risk_tier (4 # 1) = "MEDIUM"
  /\ determine_suitability (4 # 1) = ["Moderate"; "Aggressive"; "Degen"]
  /\ calculate_max_allocation (4 # 1) = 15.
Proof.
  split; [reflexivity |].
  apply (proj1 (proj2 (boundary_scores_take_higher_tier (4 # 1)))).
  reflexivity.
Defined.

(** * The high-risk end-to-end scenario *)

(** The verdict on the scenario, by evaluation. *)
Lemma memecoin_verdict (now : clock) :
  verdict <$> assess_opportunity now memecoin_scenario
  = Ok (4506 # 875, "MEDIUM", 15).
Proof. vm_compute. reflexivity. Qed.

(** C2, as stated, fails: the scenario is neither HIGH nor EXTREME and its
    ceiling is above 8. *)
Lemma memecoin_scenario_not_high :
  ~ (exists r,
       assess_opportunity (frozen 0) memecoin_scenario = Ok r
       /\ (risk_tier r = "HIGH" \/ risk_tier r = "EXTREME")
       /\ max_allocation_percentage r <= 8).
Proof.
  intros (r & Hr & Htier & _).
  pose proof (memecoin_verdict (frozen 0)) as Hv. rewrite Hr in Hv.
  injection Hv as _ Ht _. rewrite Ht in Htier. destruct Htier; discriminate.
Qed.

(** C2 (amended): whatever the clock reads, the scenario is assessed with
    overall score 4.506 / 0.875 (about 5.15), which is MEDIUM with a
    ceiling of 15: the two inapplicable categories (impermanent loss and
    bridge) enter the average at score 0 with confidence 1. *)
Theorem memecoin_scenario_is_medium (now : clock) :
  exists r,
    assess_opportunity now memecoin_scenario = Ok r
    /\ overall_score r == 4.506 / 0.875
    /\ risk_tier r = "MEDIUM"
    /\ max_allocation_percentage r = 15.
Proof.
  pose proof (memecoin_verdict now) as Hv.
  destruct (assess_opportunity now memecoin_scenario) as [r|e]; [| discriminate].
  exists r. injection Hv as Ho Ht Ha.
  repeat split; try done.
  rewrite <- (Qred_correct (overall_score r)), Ho. reflexivity.
Qed.

(** * Impermanent loss of stable pairs *)

(** C7, as stated, fails: the cap at 2 is applied before the amplifier of
    concentrated liquidity, which lifts a capped score to 3. *)
Lemma stable_pair_score_above_two :
  ~ (score (assess_impermanent_loss_risk stable_concentrated_pool) <= 2).
Proof. vm_compute. intros H. by apply H. Qed.

(** C7 (amended): for an LP position in a stable pair the impermanent-loss
    score is at most 2 when the liquidity is not concentrated, and at most
    3 (the cap of 2 amplified by 1.5) when it is, whatever the
    volatilities, the correlation and the IL protection. *)
Theorem stable_pair_score_bound (data : OpportunityRecord) :
  get_flag data "is_lp_position" false = true ->
  get_flag data "is_stable_pair" false = true ->
  score (assess_impermanent_loss_risk data) <= 3
  /\ (get_flag data "concentrated_liquidity" false = false ->
      score (assess_impermanent_loss_risk data) <= 2).
Proof.
  intros Hlp Hstable. unfold assess_impermanent_loss_risk.
  rewrite Hlp, Hstable. cbn [negb].
  destruct (get_flag data "il_protection" false),
    (get_flag data "concentrated_liquidity" false); cbn [score];
    (split; [| intros ?; try discriminate]); split_minmax; lra.
Qed.

Lemma stable_pair_score_bound_witness :
  score (assess_impermanent_loss_risk stable_concentrated_pool) <= 3.
Proof.
  apply (stable_pair_score_bound stable_concentrated_pool); reflexivity.
Defined.

(** * Protocol risk and the exploit history *)

(** C9: with every other entry fixed, a record with one previous exploit
    never has a lower Protocol score than the record with none. *)
Theorem protocol_score_monotone_first_exploit (data : OpportunityRecord) :
  score (assess_protocol_risk (with_number "previous_exploits" 0 data))
  <= score (assess_protocol_risk (with_number "previous_exploits" 1 data)).
Proof.
  unfold assess_protocol_risk, get_num, get_flag, with_number.
  cbn [numbers flags].
  rewrite !lookup_insert_eq, !lookup_insert_ne by done.
  cbn [Py.get].
  destruct (Py.get (flags data !! "team_doxxed") false);
    case_gt; cbn [score]; split_minmax; lra.
Qed.

(** The scenario is assessed without an exception. *)
Lemma memecoin_scenario_returns :
  exists r, assess_opportunity (frozen 0) memecoin_scenario = Ok r.
Proof. apply assess_opportunity_ok_iff. constructor. Qed.

(** * The overall score *)

(** C1: the weights of the table sum to 1 and are the ones of the model;
    a list of metrics whose denominator is zero is given the neutral
    score 5; and the overall score of every assessment is the weighted
    sum of the 8 category metrics divided by their (nonzero) weighted
    total. *)
Theorem overall_score_is_weighted_average :
  foldr Qplus 0 (spec_weight <$> enum RiskCategory) == 1
  /\ (forall c, risk_weights !! c = Some (spec_weight c))
  /\ (forall ms, spec_denominator ms == 0 -> calculate_overall_risk ms == 5)
  /\ (forall now data r,
        assess_opportunity now data = Ok r ->
        exists ms,
          assess_categories now data = Ok ms
          /\ category <$> ms = enum RiskCategory
          /\ risk_metrics r = by_category ms
          /\ ~ spec_denominator ms == 0
          /\ overall_score r == spec_numerator ms / spec_denominator ms).
Proof.
  split; [reflexivity |].
  split; [apply risk_weights_lookup |].
  split; [apply calculate_overall_risk_degenerate |].
  intros now data r Hr.
  destruct (assess_opportunity_inv _ _ _ Hr) as (ms & Hms & -> & ->).
  exists ms. split; [done |].
  destruct (assess_categories_inv _ _ _ Hms) as (sc & Hsc & ->).
  destruct (smart_contract_header _ _ _ Hsc) as [Hcat Hconf].
  pose proof (spec_denominator_positive sc data Hcat Hconf) as Hpos.
  split; [| split; [done | split]].
  - rewrite fmap_cons, Hcat, other_metrics_categories. reflexivity.
  - lra.
  - by apply calculate_overall_risk_positive.
Qed.

Lemma overall_score_is_weighted_average_witness :
  (spec_denominator [] == 0 /\ calculate_overall_risk [] == 5)
  /\ exists r ms,
       assess_opportunity (frozen 0) memecoin_scenario = Ok r
       /\ assess_categories (frozen 0) memecoin_scenario = Ok ms
       /\ overall_score r == spec_numerator ms / spec_denominator ms.
Proof.
  destruct overall_score_is_weighted_average as (_ & _ & Hzero & Havg).
  split.
  - split; [reflexivity | apply Hzero; reflexivity].
  - destruct memecoin_scenario_returns as [r Hr].
    destruct (Havg _ _ _ Hr) as (ms & Hms & _ & _ & _ & Hscore).
    by exists r, ms.
Defined.

(** C10: every metric of an assessment has a confidence of at least 0.7
    and every category has a positive weight, so the denominator
    [Σ (weight_i * confidence_i)] is positive.  It is the total weight the
    aggregator divides by: its test [total_weight > 0] succeeds, the
    default 5 is not returned, and the overall score is the quotient of
    the two totals of the loop, which is the confidence-weighted average
    [Σ (score_i * weight_i * confidence_i) / Σ (weight_i * confidence_i)]
    of the 8 metrics. *)
Theorem aggregation_denominator_positive (now : clock)
    (data : OpportunityRecord) (r : AssessmentResult) :
  assess_opportunity now data = Ok r ->
  exists ms,
    assess_categories now data = Ok ms
    /\ length ms = 8%nat
    /\ Forall (fun m => 0.7 <= confidence m) ms
    /\ (forall m, m ∈ ms ->
          exists w, risk_weights !! category m = Some w /\ 0 < w)
    /\ 0 < spec_denominator ms
    /\ 0 < (foldl accumulate (0, 0) ms).2
    /\ Py.gt (foldl accumulate (0, 0) ms).2 0 = true
    /\ overall_score r
       = (foldl accumulate (0, 0) ms).1 / (foldl accumulate (0, 0) ms).2
    /\ overall_score r == spec_numerator ms / spec_denominator ms.
Proof.
  intros Hr.
  destruct (assess_opportunity_inv _ _ _ Hr) as (ms & Hms & -> & _).
  exists ms. split; [done |].
  destruct (assess_categories_inv _ _ _ Hms) as (sc & Hsc & ->).
  destruct (smart_contract_header _ _ _ Hsc) as [Hcat Hconf].
  pose proof (spec_denominator_positive sc data Hcat Hconf) as Hpos.
  destruct (calculate_overall_risk_positive _ Hpos) as [Hgt Havg].
  split; [done |]. split.
  { constructor; [rewrite Hconf; lra |].
    eapply Forall_impl; [apply other_metrics_confidence |].
    intros m Hm. cbn in Hm. lra. }
  split.
  { intros m _. exists (spec_weight (category m)).
    split; [apply risk_weights_lookup |]. destruct (category m); cbn; lra. }
  split; [done |].
  split; [by apply gt_true |].
  split; [done |].
  split; [| exact Havg].
  unfold calculate_overall_risk.
  destruct (foldl accumulate (0, 0) (sc :: other_metrics data)) as [ts tw].
  cbn [fst snd] in *. by rewrite Hgt.
Qed.

Lemma aggregation_denominator_positive_witness :
  exists r ms,
    assess_opportunity (frozen 0) memecoin_scenario = Ok r
    /\ assess_categories (frozen 0) memecoin_scenario = Ok ms
    /\ 0 < spec_denominator ms
    /\ overall_score r == spec_numerator ms / spec_denominator ms.
Proof.
  destruct memecoin_scenario_returns as [r Hr].
  destruct (aggregation_denominator_positive _ _ _ Hr)
    as (ms & Hms & _ & _ & _ & Hpos & _ & _ & _ & Havg).
  by exists r, ms.
Defined.

(** * Ranges of the metrics *)

(** The dictionary of an assessment holds every metric under the value of
    its category. *)
Lemma assessment_metrics now data sc :
  assess_smart_contract_risk now data = Ok sc ->
  exists r,
    assess_opportunity now data = Ok r
    /\ (forall rm, rm ∈ sc :: other_metrics data ->
          risk_metrics r !! RiskCategory_value (category rm) = Some rm)
    /\ (forall key rm, risk_metrics r !! key = Some rm ->
          rm ∈ sc :: other_metrics data).
Proof.
  intros Hsc.
  destruct (smart_contract_header _ _ _ Hsc) as [Hcat _].
  assert (assess_categories now data = Ok (sc :: other_metrics data)) as Hms
    by (by rewrite assess_categories_eq, Hsc).
  assert (NoDup (category <$> sc :: other_metrics data)) as Hnd.
  { rewrite fmap_cons, Hcat, other_metrics_categories.
    exact (NoDup_enum RiskCategory). }
  eexists. split; [unfold assess_opportunity; rewrite Hms; reflexivity |].
  cbn [risk_metrics]. split.
  - intros rm Hrm. by apply by_category_lookup.
  - intros key rm Hrm. by apply (by_category_lookup _ Hnd) in Hrm as [Hrm _].
Qed.

(** When the volatilities are not negative, the correlation is within
    [-1, 1] and no audit of a recognised firm is undated or dated after
    the clock, the assessment returns, its dictionary holds one metric
    for each of the 8 categories and nothing else, and every metric has a
    score within [0, 10] and a confidence within [0, 1]. *)
Lemma metrics_in_range (now : clock) (data : OpportunityRecord) :
  valid_record now data ->
  exists r,
    assess_opportunity now data = Ok r
    /\ (forall c, exists rm,
          risk_metrics r !! RiskCategory_value c = Some rm /\ category rm = c)
    /\ (forall key rm, risk_metrics r !! key = Some rm -> in_range rm).
Proof.
  intros (Hpast & Hv1 & Hv2 & Hcorr).
  destruct (check_audit_status_range now data Hpast) as (a & f & m & Ha & Hrange).
  destruct (smart_contract_after_audit _ _ _ _ _ Ha)
    as (sc & Hsc & Hcat & Hconf & _ & _ & Hscore).
  destruct (assessment_metrics _ _ _ Hsc) as (r & Hr & Hin & Hout).
  exists r. split; [done |]. split.
  - intros c.
    assert (c ∈ category <$> sc :: other_metrics data) as Hc.
    { rewrite fmap_cons, Hcat, other_metrics_categories.
      exact (elem_of_enum c). }
    apply list_elem_of_fmap in Hc as (rm & -> & Hrm).
    exists rm. split; [| done]. by apply Hin.
  - intros key rm Hrm. apply Hout in Hrm.
    apply elem_of_cons in Hrm as [-> | Hrm].
    + split; [| rewrite Hconf; lra].
      assert (0 <= a <= 10) as Ha10 by lra. specialize (Hscore Ha10). lra.
    + pose proof (other_metrics_scores data Hv1 Hv2 Hcorr) as Hs.
      pose proof (other_metrics_confidence data) as Hc.
      rewrite Forall_forall in Hs, Hc.
      specialize (Hs _ Hrm). specialize (Hc _ Hrm). cbn in Hc.
      split; lra.
Qed.

(** C8: the scores are clamped from above only.  For an LP position with
    a correlation entry of 3 the assessment returns an Impermanent-Loss
    metric of score -3, and for an audit dated 400 days after the clock
    reading it returns a Smart-Contract metric of a score between -9 and
    -8: neither is within [0, 10]. *)
Lemma scores_below_range :
  (exists r rm,
     assess_opportunity (frozen 0) miscorrelated_pool = Ok r
     /\ risk_metrics r !! "impermanent_loss" = Some rm
     /\ score rm == -3
     /\ ~ in_range rm)
  /\ (exists r rm,
        assess_opportunity (frozen 0) future_audit_record = Ok r
        /\ risk_metrics r !! "smart_contract" = Some rm
        /\ -9 < score rm < -8
        /\ ~ in_range rm).
Proof.
  split.
  - destruct (smart_contract_ok_iff (frozen 0) miscorrelated_pool) as [_ [sc Hsc]];
      [constructor |].
    destruct (assessment_metrics _ _ _ Hsc) as (r & Hr & Hin & _).
    exists r, (assess_impermanent_loss_risk miscorrelated_pool).
    split; [done |]. split.
    { apply (Hin (assess_impermanent_loss_risk miscorrelated_pool)).
      apply elem_of_cons. right. apply elem_of_cons. by left. }
    assert (score (assess_impermanent_loss_risk miscorrelated_pool) == -3) as Hs
      by (vm_compute; reflexivity).
    split; [done |]. intros [[H0 _] _]. rewrite Hs in H0. lra.
  - destruct (assess_smart_contract_risk (frozen 0) future_audit_record)
      as [sc|e] eqn:Hsc; [| by vm_compute in Hsc].
    destruct (assessment_metrics _ _ _ Hsc) as (r & Hr & Hin & _).
    exists r, sc. split; [done |].
    destruct (smart_contract_header _ _ _ Hsc) as [Hcat _].
    split.
    { rewrite <- (Hin sc) by (apply elem_of_cons; by left). by rewrite Hcat. }
    vm_compute in Hsc. injection Hsc as <-.
    split; [by split |]. by intros [[H0 _] _].
Qed.

(** * No audits *)




(** * Missing entries *)

(** C5: an audit of a recognised firm that has no date makes the entry
    point raise [KeyError], although nothing in the record is malformed.
    The date is read with [audit['date']]; the firm, on the line before,
    is read with [audit.get('firm', '')], and an entry with neither a firm
    nor a date is passed over. *)
Lemma undated_audit_raises :
  assess_opportunity (frozen 0) undated_audit_record = Raise (KeyError "date")
  /\ ~ (exists r, assess_opportunity (frozen 0) undated_audit_record = Ok r)
  /\ exists r, assess_opportunity (frozen 0) unnamed_audit_record = Ok r.
Proof.
  assert (assess_opportunity (frozen 0) undated_audit_record
          = Raise (KeyError "date")) as H by (vm_compute; reflexivity).
  split; [done |]. split.
  - intros [r Hr]. by rewrite H in Hr.
  - apply assess_opportunity_ok_iff.
    apply Forall_cons. split; [| constructor]. by intros [? [=]].
Qed.

(** The entry point returns exactly when every audit of a recognised firm
    carries a date the loop can take the age of; every other entry of the
    record, and the firm of an audit, may be absent and is defaulted.
    When it raises, the exception is the [KeyError] of a missing date,
    the [ValueError] of a date that does not parse or the [TypeError] of
    a date with a time zone. *)
Lemma assessment_returns_iff_audits_dated (now : clock)
    (data : OpportunityRecord) :
  ((exists r, assess_opportunity now data = Ok r)
   <-> Forall dated (audit_list data))
  /\ (forall e, assess_opportunity now data = Raise e ->
        e = KeyError "date" \/ e = ValueError "date"
        \/ e = Py.TypeError "-").
Proof.
  split; [apply assess_opportunity_ok_iff |].
  intros e. unfold assess_opportunity. rewrite assess_categories_eq.
  destruct (assess_smart_contract_risk now data) as [sc|e'] eqn:Hsc; [done |].
  cbn. intros [= <-].
  destruct (check_audit_status now data (∅, [])) as [[a [f m]]|e''] eqn:Ha.
  - destruct (smart_contract_after_audit _ _ _ _ _ Ha) as (rm & Hrm & _).
    by rewrite Hrm in Hsc.
  - rewrite (smart_contract_audit_raises _ _ _ Ha) in Hsc.
    injection Hsc as <-. by apply (check_audit_status_raises now data).
Qed.

(** * The clock *)

(** C4, as stated, fails: the same record, assessed at two readings of
    the clock 400 days apart, gets two different results. *)
Lemma assessment_depends_on_clock :
  assess_opportunity (frozen 0) certik_audit_record
  <> assess_opportunity (frozen day_400) certik_audit_record.
Proof.
  intros H. apply (f_equal (fmap verdict)) in H. vm_compute in H. discriminate.
Qed.

(** C4 (amended): the result is a function of the input record and of
    the whole-day ages the clock gives the dated audits of recognised
    firms.  Two calls on the same record return the same result (or
    raise the same exception) whenever their clocks give those audits the
    same ages, in particular when the record lists no such audit. *)
Theorem assessment_same_when_audit_ages_agree (now1 now2 : clock)
    (data : OpportunityRecord) :
  same_audit_ages now1 now2 data ->
  assess_opportunity now1 data = assess_opportunity now2 data.
Proof.
  intros H. unfold assess_opportunity. rewrite !assess_categories_eq.
  by rewrite (smart_contract_same_ages _ _ _ H).
Qed.

Lemma assessment_same_when_audit_ages_agree_witness :
  assess_opportunity (frozen 0) certik_audit_record
  = assess_opportunity (frozen 3600000000000) certik_audit_record.
Proof.
  apply assessment_same_when_audit_ages_agree.
  intros k a t Hk Ht. destruct k as [|k]; [| done].
  injection Hk as <-. injection Ht as <-. reflexivity.
Defined.

(** * The aggregate stays within the scores *)

Lemma spec_weight_positive (c : RiskCategory) : 0 < spec_weight c.
Proof. destruct c; reflexivity. Qed.

Lemma weighted_sums_between (lo hi : Q) (ms : list RiskMetrics) :
  Forall (fun m => lo <= score m <= hi /\ 0 <= confidence m) ms ->
  0 <= spec_denominator ms
  /\ lo * spec_denominator ms <= spec_numerator ms <= hi * spec_denominator ms.
Proof.
  unfold spec_numerator, spec_denominator.
  induction 1 as [|m ms (Hs & Hc) _ IH]; cbn [sum_over foldr]; [lra |].
  fold (sum_over (fun m => score m * spec_weight (category m) * confidence m) ms).
  fold (sum_over (fun m => spec_weight (category m) * confidence m) ms).
  pose proof (spec_weight_positive (category m)) as Hw.
  assert (0 <= spec_weight (category m) * confidence m) as Hwc
    by (apply Qmult_le_0_compat; lra).
  rewrite <- !Qmult_assoc.
  generalize dependent (spec_weight (category m) * confidence m). intros wc Hwc.
  nra.
Qed.

Lemma weighted_average_between (lo hi : Q) (ms : list RiskMetrics) :
  lo <= 5 <= hi ->
  Forall (fun m => lo <= score m <= hi /\ 0 <= confidence m) ms ->
  lo <= calculate_overall_risk ms <= hi.
Proof.
  intros H5 Hms.
  destruct (weighted_sums_between lo hi ms Hms) as (Hden & Hnum).
  destruct (Qlt_le_dec 0 (spec_denominator ms)) as [Hpos|Hzero].
  - destruct (calculate_overall_risk_positive ms Hpos) as [_ ->].
    split.
    + apply Qle_shift_div_l; [done | lra].
    + apply Qle_shift_div_r; [done | lra].
  - rewrite calculate_overall_risk_degenerate; lra.
Qed.

(** * Bounds of the categories and of the overall score *)

Lemma liquidity_bounds (data : OpportunityRecord) :
  1.4 <= score (assess_liquidity_risk data) <= 9.2.
Proof.
  unfold assess_liquidity_risk.
  generalize (get_num data "volume_24h" 0 / get_num data "tvl" 0).
  intros turnover.
  assert (get_num data "lock_period_days" 0 / 10 * 10
          == get_num data "lock_period_days" 0) as Hlock by field.
  case_gt; cbn [score]; split_minmax; lra.
Qed.

Lemma protocol_bounds (data : OpportunityRecord) :
  1.5 <= score (assess_protocol_risk data) <= 8.2.
Proof.
  unfold assess_protocol_risk.
  destruct (get_flag data "team_doxxed" false);
    case_gt; cbn [score]; split_minmax; lra.
Qed.

Lemma market_bounds (data : OpportunityRecord) :
  2.5 <= score (assess_market_risk data) <= 7.8.
Proof.
  unfold assess_market_risk.
  generalize (get_labels data "token_types" []). intros token_types.
  destruct (Py.contains "stablecoin" token_types),
    (Py.contains "bluechip" token_types),
    (Py.contains "altcoin" token_types),
    (get_flag data "sensitive_to_rates" false);
    case_gt; cbn [score]; lra.
Qed.

Lemma regulatory_bounds (data : OpportunityRecord) :
  2.8 <= score (assess_regulatory_risk data) <= 7.
Proof.
  unfold assess_regulatory_risk.
  destruct (Py.contains "US" (get_labels data "restricted_regions" [])),
    (get_flag data "kyc_required" false),
    (get_flag data "potential_security" false); cbn [score]; lra.
Qed.

Lemma oracle_bounds (data : OpportunityRecord) :
  0.96 <= score (assess_oracle_risk data) <= 9.
Proof.
  unfold assess_oracle_risk.
  pose proof (oracle_scores_range
                (Py.lower (get_text data "oracle_provider" "unknown"))) as Hr.
  generalize dependent
    (Py.get (oracle_scores
               !! Py.lower (get_text data "oracle_provider" "unknown")) 9).
  intros r Hr.
  destruct (get_flag data "multi_oracle" false),
    (get_flag data "twap_enabled" false); cbn [score]; lra.
Qed.

(** X2: five categories have bounds that no input can leave: Liquidity
    stays within [1.4, 9.2], Protocol within [1.5, 8.2], Market within
    [2.5, 7.8], Regulatory within [2.8, 7] and Oracle within [0.96, 9]. *)
Theorem category_score_bounds (data : OpportunityRecord) :
  1.4 <= score (assess_liquidity_risk data) <= 9.2
  /\ 1.5 <= score (assess_protocol_risk data) <= 8.2
  /\ 2.5 <= score (assess_market_risk data) <= 7.8
  /\ 2.8 <= score (assess_regulatory_risk data) <= 7
  /\ 0.96 <= score (assess_oracle_risk data) <= 9.
Proof.
  split; [apply liquidity_bounds |].
  split; [apply protocol_bounds |].
  split; [apply market_bounds |].
  split; [apply regulatory_bounds | apply oracle_bounds].
Qed.





(** * The classifier *)

Lemma classifier_cases (s : Q) :
  (s < 2
   /\ determine_risk_tier s = "MINIMAL" /\ calculate_max_allocation s = 40
   /\ determine_suitability s
      = ["Conservative"; "Moderate"; "Aggressive"; "Degen"])
  \/ (2 <= s < 4
      /\ determine_risk_tier s = "LOW" /\ calculate_max_allocation s = 25
      /\ determine_suitability s
         = ["Conservative"; "Moderate"; "Aggressive"; "Degen"])
  \/ (4 <= s < 6
      /\ determine_risk_tier s = "MEDIUM" /\ calculate_max_allocation s = 15
      /\ determine_suitability s = ["Moderate"; "Aggressive"; "Degen"])
  \/ (6 <= s < 8
      /\ determine_risk_tier s = "HIGH" /\ calculate_max_allocation s = 8
      /\ determine_suitability s = ["Aggressive"; "Degen"])
  \/ (8 <= s
      /\ determine_risk_tier s = "EXTREME" /\ calculate_max_allocation s = 3
      /\ determine_suitability s = ["Degen"]).
Proof.
  unfold determine_risk_tier, determine_suitability, calculate_max_allocation.
  destruct (lt_cases s 2) as [[E2 H2]|[E2 H2]];
    destruct (lt_cases s 4) as [[E4 H4]|[E4 H4]];
    destruct (lt_cases s 6) as [[E6 H6]|[E6 H6]];
    destruct (lt_cases s 8) as [[E8 H8]|[E8 H8]];
    rewrite ?E2, ?E4, ?E6, ?E8; try lra.
  - by left.
  - right; left. repeat split; (done || lra).
  - right; right; left. repeat split; (done || lra).
  - right; right; right; left. repeat split; (done || lra).
  - right; right; right; right. repeat split; (done || lra).
Qed.

(** X4: the three classification functions use the same breakpoints, so
    tier, allocation ceiling and suitable profiles always go together in
    one of five rows. *)
Theorem classifier_rows (s : Q) :
  (s < 2
   /\ determine_risk_tier s = "MINIMAL" /\ calculate_max_allocation s = 40
   /\ determine_suitability s
      = ["Conservative"; "Moderate"; "Aggressive"; "Degen"])
  \/ (2 <= s < 4
      /\ determine_risk_tier s = "LOW" /\ calculate_max_allocation s = 25
      /\ determine_suitability s
         = ["Conservative"; "Moderate"; "Aggressive"; "Degen"])
  \/ (4 <= s < 6
      /\ determine_risk_tier s = "MEDIUM" /\ calculate_max_allocation s = 15
      /\ determine_suitability s = ["Moderate"; "Aggressive"; "Degen"])
  \/ (6 <= s < 8
      /\ determine_risk_tier s = "HIGH" /\ calculate_max_allocation s = 8
      /\ determine_suitability s = ["Aggressive"; "Degen"])
  \/ (8 <= s
      /\ determine_risk_tier s = "EXTREME" /\ calculate_max_allocation s = 3
      /\ determine_suitability s = ["Degen"]).
Proof. apply classifier_cases. Qed.

(** X5: a higher score never raises the allocation ceiling and never adds
    a suitable profile: the profiles of the higher score are a suffix of
    those of the lower one. *)
Theorem classifier_monotone (s1 s2 : Q) :
  s1 <= s2 ->
  calculate_max_allocation s2 <= calculate_max_allocation s1
  /\ determine_suitability s2 `suffix_of` determine_suitability s1.
Proof.
  intros Hle.
  destruct (classifier_cases s1)
    as [(? & _ & -> & ->)|[(? & _ & -> & ->)|[(? & _ & -> & ->)
       |[(? & _ & -> & ->)|(? & _ & -> & ->)]]]];
    destruct (classifier_cases s2)
      as [(? & _ & -> & ->)|[(? & _ & -> & ->)|[(? & _ & -> & ->)
         |[(? & _ & -> & ->)|(? & _ & -> & ->)]]]];
    try lra;
    (split; [lra |]);
    by apply (bool_decide_unpack _).
Qed.

Lemma classifier_monotone_witness :
  calculate_max_allocation 7 <= calculate_max_allocation 3
  /\ determine_suitability 7 `suffix_of` determine_suitability 3.
Proof. apply classifier_monotone. lra. Defined.

(** * The sort of the recommendations *)

Lemma insert_by_score_perm (x : RiskMetrics) (l : list RiskMetrics) :
  insert_by_score x l ≡ₚ x :: l.
Proof.
  induction l as [|y l IH]; cbn [insert_by_score]; [done |].
  destruct (Py.gt (score y) (score x)); [| done].
  rewrite IH. apply Permutation_swap.
Qed.

Lemma insert_by_score_sorted (x : RiskMetrics) (l : list RiskMetrics) :
  Sorted score_ge l -> Sorted score_ge (insert_by_score x l).
Proof.
  induction 1 as [|y l Hl IH Hhd]; cbn [insert_by_score].
  - by repeat constructor.
  - destruct (gt_cases (score y) (score x)) as [[-> Hgt]|[-> Hle]].
    + constructor; [done |].
      destruct Hhd as [|z l Hz]; cbn [insert_by_score].
      * constructor. unfold score_ge. lra.
      * destruct (Py.gt (score z) (score x)); constructor; unfold score_ge in *;
          lra.
    + constructor; [by constructor |]. by constructor.
Qed.

Lemma insert_by_score_stable (q : Q) (x : RiskMetrics) (l : list RiskMetrics) :
  List.filter (fun m => Qeq_bool (score m) q) (insert_by_score x l)
  = List.filter (fun m => Qeq_bool (score m) q) (x :: l).
Proof.
  induction l as [|y l IH]; cbn [insert_by_score]; [done |].
  destruct (gt_cases (score y) (score x)) as [[-> Hgt]|[-> Hle]]; [| done].
  cbn [List.filter] in *. rewrite IH.
  destruct (Qeq_bool (score x) q) eqn:Ex; [| done].
  destruct (Qeq_bool (score y) q) eqn:Ey; [| done].
  apply Qeq_bool_iff in Ex, Ey. lra.
Qed.

Lemma sorted_by_score_desc_perm (l : list RiskMetrics) :
  sorted_by_score_desc l ≡ₚ l.
Proof.
  unfold sorted_by_score_desc.
  induction l as [|x l IH]; cbn [foldr]; [done |].
  by rewrite insert_by_score_perm, IH.
Qed.

(** X6: the sort of the recommendations returns the same metrics, in an
    order of scores that never increases, and keeps metrics of equal
    score in the order they came in. *)
Theorem sorted_by_score_desc_spec (l : list RiskMetrics) :
  sorted_by_score_desc l ≡ₚ l
  /\ Sorted score_ge (sorted_by_score_desc l)
  /\ (forall q,
        List.filter (fun m => Qeq_bool (score m) q) (sorted_by_score_desc l)
        = List.filter (fun m => Qeq_bool (score m) q) l).
Proof.
  unfold sorted_by_score_desc.
  induction l as [|x l (Hperm & Hsorted & Hstable)]; cbn [foldr].
  - repeat split; constructor.
  - split; [| split].
    + by rewrite insert_by_score_perm, Hperm.
    + by apply insert_by_score_sorted.
    + intros q. rewrite insert_by_score_stable. cbn [List.filter].
      by rewrite Hstable.
Qed.

(** * The recommendations *)

Lemma top_mitigations_length (top : list RiskMetrics) : forall acc,
  (length (top_mitigations acc top) <= length acc + 2 * length top)%nat.
Proof.
  unfold top_mitigations.
  induction top as [|m top IH]; intros acc; cbn [foldl length]; [lia |].
  etransitivity; [apply IH |].
  destruct (Py.gt (score m) 6); [| lia].
  rewrite length_app, length_take. lia.
Qed.

Lemma top_mitigations_elem (line : Py.fstring) (top : list RiskMetrics) :
  forall acc,
    line ∈ top_mitigations acc top ->
    line ∈ acc
    \/ exists m, m ∈ top /\ 6 < score m /\ line ∈ take 2 (mitigation m).
Proof.
  unfold top_mitigations.
  induction top as [|m top IH]; intros acc; cbn [foldl]; [by left |].
  intros Hin. apply IH in Hin as [Hin|(m' & Hm' & Hs & Hl)].
  - destruct (gt_cases (score m) 6) as [[E Hgt]|[E _]]; rewrite E in Hin;
      [| by left].
    apply elem_of_app in Hin as [Hin|Hin]; [by left |].
    right. exists m. split; [by left | done].
  - right. exists m'. split; [by right | done].
Qed.

Lemma top_mitigations_none (top : list RiskMetrics) : forall acc,
  Forall (fun m => score m <= 6) top -> top_mitigations acc top = acc.
Proof.
  unfold top_mitigations.
  induction top as [|m top IH]; intros acc Hall; cbn [foldl]; [done |].
  apply Forall_cons in Hall as [Hm Hall].
  assert (Py.gt (score m) 6 = false) as -> by by apply gt_false.
  by apply IH.
Qed.

(** X7: the recommendations always hold the sizing line for the ceiling
    of the overall score, and between 1 and 9 lines in all. *)
Theorem recommendations_sizing (ms : list RiskMetrics) (data : OpportunityRecord) :
  allocation_line (calculate_max_allocation (calculate_overall_risk ms))
    ∈ generate_recommendations ms data
  /\ (1 <= length (generate_recommendations ms data) <= 9)%nat.
Proof.
  unfold generate_recommendations.
  fold (top_mitigations [] (take 3 (sorted_by_score_desc ms))).
  fold (allocation_line (calculate_max_allocation (calculate_overall_risk ms))).
  pose proof (top_mitigations_length (take 3 (sorted_by_score_desc ms)) [])
    as Hlen.
  rewrite length_take in Hlen. cbn [length] in Hlen.
  generalize dependent (top_mitigations [] (take 3 (sorted_by_score_desc ms))).
  intros top Hlen.
  destruct (Py.gt (calculate_overall_risk ms) 7),
    (Py.gt (get_num data "apy" 0) 100),
    (existsb _ ms);
    (split; [rewrite ?elem_of_app, ?list_elem_of_singleton; auto
            | rewrite ?length_app; cbn [length]; lia]).
Qed.

(** X8: every line of the recommendations is one of the first two
    mitigations of a metric that scores above 6, or one of the four fixed
    lines; no advice comes from a category scoring 6 or less. *)
Theorem recommendations_provenance (ms : list RiskMetrics)
    (data : OpportunityRecord) (line : Py.fstring) :
  line ∈ generate_recommendations ms data ->
  (exists m, m ∈ ms /\ 6 < score m /\ line ∈ take 2 (mitigation m))
  \/ line = allocation_line (calculate_max_allocation (calculate_overall_risk ms))
  \/ line = wait_line \/ line = fomo_line \/ line = hedge_line.
Proof.
  unfold generate_recommendations.
  fold (top_mitigations [] (take 3 (sorted_by_score_desc ms))).
  fold (allocation_line (calculate_max_allocation (calculate_overall_risk ms))).
  fold wait_line. fold fomo_line. fold hedge_line.
  intros Hin.
  assert (line ∈ top_mitigations [] (take 3 (sorted_by_score_desc ms))
          \/ line = allocation_line
                      (calculate_max_allocation (calculate_overall_risk ms))
          \/ line = wait_line \/ line = fomo_line \/ line = hedge_line)
    as [Htop|Hfixed].
  { destruct (Py.gt (calculate_overall_risk ms) 7),
      (Py.gt (get_num data "apy" 0) 100),
      (existsb _ ms);
      rewrite ?elem_of_app, ?list_elem_of_singleton in Hin; tauto. }
  - left. apply top_mitigations_elem in Htop as [Hnil|(m & Hm & Hs & Hl)];
      [by apply elem_of_nil in Hnil |].
    exists m. split; [| done].
    apply elem_of_take in Hm as (i & Hi & _).
    apply list_elem_of_lookup_2 in Hi.
    by rewrite (sorted_by_score_desc_perm ms) in Hi.
  - by right.
Qed.

Lemma recommendations_provenance_witness :
  (exists m,
     m ∈ other_metrics memecoin_scenario
     /\ 6 < score m
     /\ lit "⚠️ Small protocol - higher risk" ∈ take 2 (mitigation m))
  \/ lit "⚠️ Small protocol - higher risk"
     = allocation_line
         (calculate_max_allocation
            (calculate_overall_risk (other_metrics memecoin_scenario)))
  \/ lit "⚠️ Small protocol - higher risk" = wait_line
  \/ lit "⚠️ Small protocol - higher risk" = fomo_line
  \/ lit "⚠️ Small protocol - higher risk" = hedge_line.
Proof.
  apply (recommendations_provenance _ memecoin_scenario).
  vm_compute. right. left.
Defined.

Lemma no_hedging_below_six (ms : list RiskMetrics) :
  Forall (fun m => score m <= 6) ms ->
  existsb (fun m => bool_decide (category m = IMPERMANENT_LOSS)
                    && Py.gt (score m) 6) ms = false.
Proof.
  induction 1 as [|m ms Hm _ IH]; cbn [existsb]; [done |].
  rewrite IH. assert (Py.gt (score m) 6 = false) as -> by by apply gt_false.
  by rewrite andb_false_r.
Qed.

(** X9: when no metric scores above 6 (and scores and confidences are not
    negative), the recommendations are the sizing line alone, followed by
    the gradual-entry caution when the nominal APY exceeds 100: no
    mitigation, no waiting caution and no hedging suggestion. *)
Theorem recommendations_when_no_high_risk (ms : list RiskMetrics)
    (data : OpportunityRecord) :
  Forall (fun m => 0 <= score m <= 6 /\ 0 <= confidence m) ms ->
  generate_recommendations ms data
  = allocation_line (calculate_max_allocation (calculate_overall_risk ms))
    :: (if Py.gt (get_num data "apy" 0) 100 then [fomo_line] else []).
Proof.
  intros Hall.
  pose proof (weighted_average_between 0 6 ms ltac:(lra) Hall) as Hov.
  unfold generate_recommendations.
  fold (top_mitigations [] (take 3 (sorted_by_score_desc ms))).
  fold (allocation_line (calculate_max_allocation (calculate_overall_risk ms))).
  fold fomo_line.
  rewrite top_mitigations_none.
  2:{ apply Forall_forall. intros m Hm.
      apply elem_of_take in Hm as (i & Hi & _).
      apply list_elem_of_lookup_2 in Hi.
      rewrite (sorted_by_score_desc_perm ms) in Hi.
      rewrite Forall_forall in Hall. by destruct (Hall m Hi) as [[_ ?] _]. }
  assert (Py.gt (calculate_overall_risk ms) 7 = false) as ->
    by (apply gt_false; lra).
  rewrite no_hedging_below_six.
  2:{ eapply Forall_impl; [exact Hall |]. by intros m [[_ ?] _]. }
  by destruct (Py.gt (get_num data "apy" 0) 100).
Qed.

Lemma recommendations_when_no_high_risk_witness :
  generate_recommendations (other_metrics deep_pool_record) deep_pool_record
  = [allocation_line
       (calculate_max_allocation
          (calculate_overall_risk (other_metrics deep_pool_record)))].
Proof.
  apply (recommendations_when_no_high_risk (other_metrics deep_pool_record)
           deep_pool_record).
  unfold other_metrics.
  repeat (apply List.Forall_cons; [vm_compute; repeat split; discriminate |]).
  apply List.Forall_nil.
Defined.

(** * Audits and the Smart-Contract score *)

Lemma smart_contract_unfold (now : clock) (data : OpportunityRecord) :
  assess_smart_contract_risk now data
  = ('(a, fr) ← check_audit_status now data (∅, []); after_audit_check data a fr).
Proof.
  unfold assess_smart_contract_risk, after_audit_check.
  by destruct (check_audit_status now data (∅, [])) as [[a fr]|e].
Qed.


(** A lower base risk never gives a higher score. *)
Lemma after_audit_check_monotone (data : OpportunityRecord) (a a' : Q)
    (fr fr' : frame) :
  a <= a' ->
  exists rm rm',
    after_audit_check data a fr = Ok rm
    /\ after_audit_check data a' fr' = Ok rm'
    /\ score rm <= score rm'.
Proof.
  intros Hle. destruct fr as [f m], fr' as [f' m'].
  unfold after_audit_check, check_bug_bounty, check_contract_age,
    check_known_vulnerabilities, check_upgrade_mechanism, get_num.
  destruct (get_flag data "upgradeable" false);
    [destruct (numbers data !! "timelock_days") as [t|]; cbn [Py.get] |].
  3: case_gt; do 2 eexists; (split; [reflexivity |]);
       (split; [reflexivity |]); cbn [score]; split_minmax; lra.
  - case_gt; do 2 eexists; (split; [reflexivity |]);
      (split; [reflexivity |]); cbn [score]; split_minmax; lra.
  - destruct (gt_cases 0 2) as [[_ ?]|[E _]]; [lra |]. rewrite E.
    case_gt; do 2 eexists; (split; [reflexivity |]);
      (split; [reflexivity |]); cbn [score]; split_minmax; lra.
Qed.


Lemma audit_loop_le (now : clock) (l : list Audit) : forall k best q,
  audit_loop now k l best = Ok q -> q <= best.
Proof.
  induction l as [|a l IH]; intros k best q; cbn [audit_loop].
  - intros [= ->]. lra.
  - destruct (audit_firms !! _); [| apply IH].
    destruct (audit_date a) as [[t|t| |]|]; cbn; try done.
    all: intros H; apply IH in H.
    all: eapply Qle_trans; [exact H |]; apply Q.le_min_l.
Qed.

Lemma check_audit_status_le (now : clock) (data : OpportunityRecord)
    (a : Q) (fr : frame) :
  check_audit_status now data (∅, []) = Ok (a, fr) -> a <= 10.
Proof.
  destruct (decide (audit_list data = [])) as [E|E].
  - rewrite (check_audit_status_empty _ _ E). intros [= <- _]. lra.
  - rewrite (check_audit_status_loop _ _ E).
    destruct (audit_loop now 0 (audit_list data) 10) as [q|e] eqn:El; [| done].
    cbn. intros [= <- _]. by apply (audit_loop_le _ _ _ _ _ El).
Qed.



(** X11: listing audits never raises the Smart-Contract score: whenever
    the assessor returns, its score is at most the score of the same
    record with no audits. *)
Theorem audits_never_raise_score (now : clock) (data : OpportunityRecord)
    (rm : RiskMetrics) :
  assess_smart_contract_risk now data = Ok rm ->
  exists rm0,
    assess_smart_contract_risk now (with_audits [] data) = Ok rm0
    /\ score rm <= score rm0.
Proof.
  rewrite !smart_contract_unfold.
  rewrite (check_audit_status_empty now (with_audits [] data) eq_refl).
  destruct (check_audit_status now data (∅, [])) as [[a fr]|e] eqn:Ha; [| done].
  cbn [mbind result_bind Py.bind mret result_ret].
  change (after_audit_check (with_audits [] data))
    with (after_audit_check data).
  destruct (after_audit_check_monotone data a 10 fr
              (<["audit_quality" := FNum 0]> ∅,
               [lit "⚠️ Get protocol audited by reputable firm"])
              (check_audit_status_le _ _ _ _ Ha))
    as (rm1 & rm0 & -> & -> & Hle).
  intros [= <-]. by exists rm0.
Qed.

Lemma audits_never_raise_score_witness :
  exists rm rm0,
    assess_smart_contract_risk (frozen 0) certik_audit_record = Ok rm
    /\ assess_smart_contract_risk (frozen 0)
         (with_audits [] certik_audit_record) = Ok rm0
    /\ score rm <= score rm0.
Proof.
  eexists.
  destruct (audits_never_raise_score (frozen 0) certik_audit_record _ eq_refl)
    as (rm0 & H0 & Hle).
  exists rm0. split; [reflexivity |]. by split.
Defined.

(** * The Smart-Contract score as time passes *)

Lemma timedelta_days_monotone (t t' earlier : Z) :
  (t <= t')%Z -> (timedelta_days t earlier <= timedelta_days t' earlier)%Z.
Proof.
  intros H. unfold timedelta_days, ns_per_day. apply Z.div_le_mono; lia.
Qed.

Lemma audit_score_monotone (r : Q) (d d' : Z) :
  0 <= r -> (d <= d')%Z ->
  (1 - r * Py.max 0.5 (1 - inject_Z d / 365)) * 10
  <= (1 - r * Py.max 0.5 (1 - inject_Z d' / 365)) * 10.
Proof.
  intros Hr Hd. rewrite Zle_Qle in Hd.
  assert (inject_Z d / 365 * 365 == inject_Z d) as E by field.
  assert (inject_Z d' / 365 * 365 == inject_Z d') as E' by field.
  assert (Py.max 0.5 (1 - inject_Z d' / 365)
          <= Py.max 0.5 (1 - inject_Z d / 365)) as Hmax
    by (split_minmax; lra).
  generalize dependent (Py.max 0.5 (1 - inject_Z d' / 365)).
  generalize dependent (Py.max 0.5 (1 - inject_Z d / 365)).
  intros x y Hxy. nra.
Qed.

Lemma audit_loop_clock_monotone (now now' : clock) (l : list Audit) :
  not_before now now' ->
  forall k best best' q,
    best <= best' ->
    audit_loop now k l best = Ok q ->
    exists q', audit_loop now' k l best' = Ok q' /\ q <= q'.
Proof.
  intros Hclock.
  induction l as [|a l IH]; intros k best best' q Hb; cbn [audit_loop].
  - intros [= <-]. by exists best'.
  - destruct (audit_firms !! _) as [r|] eqn:Er; [| by apply IH].
    destruct (audit_date a) as [[t|t| |]|]; cbn; try done.
    + apply IH.
      pose proof (audit_score_monotone r _ _
                    ltac:(pose proof (audit_firms_range _ _ Er); lra)
                    (timedelta_days_monotone _ _ t (Hclock k))) as Hs.
      split_minmax; lra.
    + apply IH. split_minmax; lra.
Qed.

(** X12: as the clock advances the Smart-Contract score never goes down:
    if the assessor returns at one clock, it returns at every clock that
    never reads earlier, with a score at least as high. *)
Theorem smart_contract_score_grows_with_time (now now' : clock)
    (data : OpportunityRecord) (rm : RiskMetrics) :
  not_before now now' ->
  assess_smart_contract_risk now data = Ok rm ->
  exists rm',
    assess_smart_contract_risk now' data = Ok rm' /\ score rm <= score rm'.
Proof.
  intros Hclock. rewrite !smart_contract_unfold.
  destruct (decide (audit_list data = [])) as [E|E].
  - rewrite !(check_audit_status_empty _ _ E).
    cbn [mbind result_bind Py.bind]. intros ->. exists rm. split; [done | lra].
  - rewrite !(check_audit_status_loop _ _ E).
    destruct (audit_loop now 0 (audit_list data) 10) as [q|e] eqn:El; [| done].
    destruct (audit_loop_clock_monotone now now' _ Hclock 0 10 10 q
                ltac:(lra) El) as (q' & -> & Hq).
    cbn [mbind result_bind Py.bind mret result_ret].
    destruct (after_audit_check_monotone data q q'
                (<["audit_quality" := FNum (10 - q)]> ∅,
                 if Py.lt q 3
                 then [lit "Multiple reputable audits completed"] else [])
                (<["audit_quality" := FNum (10 - q')]> ∅,
                 if Py.lt q' 3
                 then [lit "Multiple reputable audits completed"] else [])
                Hq) as (rm1 & rm2 & -> & -> & Hle).
    intros [= <-]. by exists rm2.
Qed.

Lemma smart_contract_score_grows_with_time_witness :
  exists rm rm',
    assess_smart_contract_risk (frozen 0) certik_audit_record = Ok rm
    /\ assess_smart_contract_risk (frozen day_400) certik_audit_record = Ok rm'
    /\ score rm <= score rm'.
Proof.
  eexists.
  destruct (smart_contract_score_grows_with_time (frozen 0) (frozen day_400)
              certik_audit_record _
              ltac:(intros k; unfold frozen; vm_compute; discriminate)
              eq_refl) as (rm' & H' & Hle).
  exists rm'. split; [reflexivity |]. by split.
Defined.

(** * How single entries move the scores *)

(** Reading an entry back after it was set. *)
Ltac read_back :=
  unfold get_num, get_flag, get_text, get_labels, with_number, with_flag;
  cbn [numbers flags texts labels audits];
  rewrite ?lookup_insert_eq, ?lookup_insert_ne by done;
  cbn [Py.get].

(** X13: with every other entry fixed, the Protocol score never goes down
    when the number of previous exploits goes up, and it stops growing at
    2.5: three exploits score like thirty. *)
Theorem protocol_score_monotone_in_exploits (data : OpportunityRecord)
    (n n' : Q) :
  n <= n' ->
  score (assess_protocol_risk (with_number "previous_exploits" n data))
  <= score (assess_protocol_risk (with_number "previous_exploits" n' data))
  /\ (2.5 <= n ->
      score (assess_protocol_risk (with_number "previous_exploits" n' data))
      == score (assess_protocol_risk (with_number "previous_exploits" n data))).
Proof.
  intros Hn. unfold assess_protocol_risk. read_back.
  destruct (Py.get (flags data !! "team_doxxed") false);
    case_gt; cbn [score]; (split; [| intros ?]); split_minmax; lra.
Qed.

Lemma protocol_score_monotone_in_exploits_witness :
  score (assess_protocol_risk (with_number "previous_exploits" 3 empty_record))
  <= score (assess_protocol_risk (with_number "previous_exploits" 30 empty_record))
  /\ score (assess_protocol_risk (with_number "previous_exploits" 30 empty_record))
     == score (assess_protocol_risk (with_number "previous_exploits" 3 empty_record)).
Proof.
  destruct (protocol_score_monotone_in_exploits empty_record 3 30) as [H1 H2];
    [lra |].
  split; [exact H1 | apply H2; lra].
Defined.

(** X14: the protective flags never raise the score of their category: a
    known team (Protocol), required KYC (Regulatory), several oracle
    sources and TWAP protection (Oracle). *)
Theorem protective_flags_never_raise_score (data : OpportunityRecord) :
  score (assess_protocol_risk (with_flag "team_doxxed" true data))
  <= score (assess_protocol_risk (with_flag "team_doxxed" false data))
  /\ score (assess_regulatory_risk (with_flag "kyc_required" true data))
     <= score (assess_regulatory_risk (with_flag "kyc_required" false data))
  /\ score (assess_oracle_risk (with_flag "multi_oracle" true data))
     <= score (assess_oracle_risk (with_flag "multi_oracle" false data))
  /\ score (assess_oracle_risk (with_flag "twap_enabled" true data))
     <= score (assess_oracle_risk (with_flag "twap_enabled" false data)).
Proof.
  split; [| split; [| split]].
  - unfold assess_protocol_risk. read_back.
    case_gt; cbn [score]; split_minmax; lra.
  - unfold assess_regulatory_risk. read_back.
    destruct (Py.contains "US" (Py.get (labels data !! "restricted_regions") [])),
      (Py.get (flags data !! "potential_security") false); cbn [score]; lra.
  - unfold assess_oracle_risk. read_back.
    pose proof (oracle_scores_range
                  (Py.lower (Py.get (texts data !! "oracle_provider") "unknown")))
      as Hr.
    generalize dependent
      (Py.get (oracle_scores
                 !! Py.lower (Py.get (texts data !! "oracle_provider") "unknown"))
         9).
    intros r Hr.
    destruct (Py.get (flags data !! "twap_enabled") false); cbn [score]; lra.
  - unfold assess_oracle_risk. read_back.
    pose proof (oracle_scores_range
                  (Py.lower (Py.get (texts data !! "oracle_provider") "unknown")))
      as Hr.
    generalize dependent
      (Py.get (oracle_scores
                 !! Py.lower (Py.get (texts data !! "oracle_provider") "unknown"))
         9).
    intros r Hr.
    destruct (Py.get (flags data !! "multi_oracle") false); cbn [score]; lra.
Qed.

(** X15: the warning flags never lower the score of their category:
    sensitivity to rates (Market), a potential security classification
    (Regulatory) and an earlier hack of the bridge (Bridge). *)
Theorem warning_flags_never_lower_score (data : OpportunityRecord) :
  score (assess_market_risk (with_flag "sensitive_to_rates" false data))
  <= score (assess_market_risk (with_flag "sensitive_to_rates" true data))
  /\ score (assess_regulatory_risk (with_flag "potential_security" false data))
     <= score (assess_regulatory_risk (with_flag "potential_security" true data))
  /\ score (assess_bridge_risk (with_flag "bridge_hacked_before" false data))
     <= score (assess_bridge_risk (with_flag "bridge_hacked_before" true data)).
Proof.
  split; [| split].
  - unfold assess_market_risk. read_back.
    generalize (Py.get (labels data !! "token_types") []). intros token_types.
    destruct (Py.contains "stablecoin" token_types),
      (Py.contains "bluechip" token_types),
      (Py.contains "altcoin" token_types); case_gt; cbn [score]; lra.
  - unfold assess_regulatory_risk. read_back.
    destruct (Py.contains "US" (Py.get (labels data !! "restricted_regions") [])),
      (Py.get (flags data !! "kyc_required") false); cbn [score]; lra.
  - unfold assess_bridge_risk. read_back.
    destruct (Py.get (flags data !! "uses_bridge") false); cbn [negb score];
      [| lra].
    pose proof (bridge_scores_range
                  (Py.lower (Py.get (texts data !! "bridge_provider") "unknown")))
      as Hr.
    generalize dependent
      (Py.get (bridge_scores
                 !! Py.lower (Py.get (texts data !! "bridge_provider") "unknown"))
         9).
    intros r Hr. case_gt; cbn [score]; split_minmax; lra.
Qed.

(** * The result of the entry point *)

Lemma by_category_dom (ms : list RiskMetrics) :
  dom (by_category ms)
  = list_to_set (RiskCategory_value <$> (category <$> ms)).
Proof.
  induction ms as [|m ms IH] using rev_ind.
  - unfold by_category. cbn. by rewrite dom_empty_L.
  - rewrite by_category_snoc, dom_insert_L, IH, !fmap_app, list_to_set_app_L.
    cbn. by rewrite (right_id_L ∅ (∪)), (comm_L (∪)).
Qed.

Lemma sizing_line_present (ms : list RiskMetrics) (data : OpportunityRecord) :
  allocation_line (calculate_max_allocation (calculate_overall_risk ms))
    ∈ generate_recommendations ms data.
Proof.
  unfold generate_recommendations.
  fold (allocation_line (calculate_max_allocation (calculate_overall_risk ms))).
  destruct (Py.gt (calculate_overall_risk ms) 7),
    (Py.gt (get_num data "apy" 0) 100),
    (existsb _ ms);
    rewrite ?elem_of_app, ?list_elem_of_singleton; auto.
Qed.

(** X16: the fields of a result agree with each other.  The tier, the
    ceiling and the profiles are those of one row of the classifier for
    the overall score; the recommendations hold the sizing line for that
    very ceiling; and the dictionary of metrics has exactly the eight
    category names as keys, each holding a metric of that category. *)
Theorem assessment_result_coherent (now : clock) (data : OpportunityRecord)
    (r : AssessmentResult) :
  assess_opportunity now data = Ok r ->
  risk_tier r = determine_risk_tier (overall_score r)
  /\ max_allocation_percentage r = calculate_max_allocation (overall_score r)
  /\ suitable_for r = determine_suitability (overall_score r)
  /\ "Degen" ∈ suitable_for r
  /\ allocation_line (max_allocation_percentage r) ∈ recommendations r
  /\ dom (risk_metrics r) = category_keys
  /\ (forall c rm,
        risk_metrics r !! RiskCategory_value c = Some rm -> category rm = c).
Proof.
  intros Hr. unfold assess_opportunity in Hr.
  destruct (assess_categories now data) as [ms|e] eqn:Hms; [| done].
  cbn [mbind result_bind Py.bind mret result_ret] in Hr. injection Hr as <-.
  cbn [risk_tier max_allocation_percentage suitable_for overall_score
         recommendations risk_metrics].
  destruct (assess_categories_inv _ _ _ Hms) as (sc & Hsc & ->).
  destruct (smart_contract_header _ _ _ Hsc) as [Hcat _].
  assert (category <$> sc :: other_metrics data = enum RiskCategory) as Hcats
    by (by rewrite fmap_cons, Hcat, other_metrics_categories).
  do 3 (split; [done |]).
  split.
  { destruct (classifier_cases
                (calculate_overall_risk (sc :: other_metrics data)))
      as [(_ & _ & _ & ->)|[(_ & _ & _ & ->)|[(_ & _ & _ & ->)
         |[(_ & _ & _ & ->)|(_ & _ & _ & ->)]]]];
      by apply (bool_decide_unpack _). }
  split; [apply sizing_line_present |].
  split; [by rewrite by_category_dom, Hcats |].
  intros c rm Hrm.
  apply by_category_lookup in Hrm as [_ Heq];
    [by apply (inj RiskCategory_value) |].
  rewrite Hcats. exact (NoDup_enum RiskCategory).
Qed.

Lemma assessment_result_coherent_witness :
  exists r,
    assess_opportunity (frozen 0) memecoin_scenario = Ok r
    /\ allocation_line (max_allocation_percentage r) ∈ recommendations r
    /\ dom (risk_metrics r) = category_keys.
Proof.
  destruct memecoin_scenario_returns as [r Hr].
  destruct (assessment_result_coherent _ _ _ Hr) as (_ & _ & _ & _ & Hl & Hd & _).
  by exists r.
Defined.

(** * Names of providers *)

(** X17: the Oracle and Bridge assessors read the provider's name without
    regard to letter case, and rate a name their table does not hold like
    the name "unknown". *)
Theorem provider_names (data : OpportunityRecord) (p p' : string) :
  (Py.lower p = Py.lower p' ->
   score (assess_oracle_risk (with_text "oracle_provider" p data))
   = score (assess_oracle_risk (with_text "oracle_provider" p' data))
   /\ score (assess_bridge_risk (with_text "bridge_provider" p data))
      = score (assess_bridge_risk (with_text "bridge_provider" p' data)))
  /\ (oracle_scores !! Py.lower p = None ->
      score (assess_oracle_risk (with_text "oracle_provider" p data))
      = score (assess_oracle_risk (with_text "oracle_provider" "unknown" data)))
  /\ (bridge_scores !! Py.lower p = None ->
      score (assess_bridge_risk (with_text "bridge_provider" p data))
      = score (assess_bridge_risk (with_text "bridge_provider" "unknown" data))).
Proof.
  split; [| split].
  - intros Hlow. split.
    + unfold assess_oracle_risk, get_text, get_flag, with_text.
      cbn [texts flags]. rewrite !lookup_insert_eq. cbn [Py.get].
      rewrite Hlow. by case_if.
    + unfold assess_bridge_risk, get_text, get_flag, get_num, with_text.
      cbn [texts flags numbers]. rewrite !lookup_insert_eq. cbn [Py.get].
      rewrite Hlow. by case_if.
  - intros Hnone.
    unfold assess_oracle_risk, get_text, get_flag, with_text.
    cbn [texts flags]. rewrite !lookup_insert_eq. cbn [Py.get].
    rewrite Hnone.
    change (oracle_scores !! Py.lower "unknown") with (Some (9 : Q)).
    cbn [Py.get]. by case_if.
  - intros Hnone.
    unfold assess_bridge_risk, get_text, get_flag, get_num, with_text.
    cbn [texts flags numbers]. rewrite !lookup_insert_eq. cbn [Py.get].
    rewrite Hnone.
    change (bridge_scores !! Py.lower "unknown") with (Some (9 : Q)).
    cbn [Py.get]. by case_if.
Qed.

Lemma provider_names_witness :
  score (assess_oracle_risk (with_text "oracle_provider" "ChainLink" empty_record))
  = score (assess_oracle_risk (with_text "oracle_provider" "chainlink" empty_record))
  /\ score (assess_oracle_risk (with_text "oracle_provider" "homemade" empty_record))
     = score (assess_oracle_risk (with_text "oracle_provider" "unknown" empty_record)).
Proof.
  split.
  - apply (proj1 (provider_names empty_record "ChainLink" "chainlink")).
    reflexivity.
  - apply (proj1 (proj2 (provider_names empty_record "homemade" "homemade"))).
    reflexivity.
Defined.

(** * Algebra of the aggregator *)

Lemma sum_over_app (f : RiskMetrics -> Q) (ms ms' : list RiskMetrics) :
  sum_over f (ms ++ ms') == sum_over f ms + sum_over f ms'.
Proof.
  unfold sum_over. induction ms as [|m ms IH]; cbn [app foldr]; lra.
Qed.

Lemma calculate_overall_risk_sums (ms ms' : list RiskMetrics) :
  spec_numerator ms == spec_numerator ms' ->
  spec_denominator ms == spec_denominator ms' ->
  calculate_overall_risk ms == calculate_overall_risk ms'.
Proof.
  intros Hn Hd.
  destruct (Qlt_le_dec 0 (spec_denominator ms)) as [Hpos|Hnp].
  - destruct (calculate_overall_risk_positive ms Hpos) as [_ ->].
    destruct (calculate_overall_risk_positive ms' ltac:(lra)) as [_ ->].
    by rewrite Hn, Hd.
  - unfold calculate_overall_risk.
    destruct (accumulate_spec ms 0 0) as [_ Hw].
    destruct (accumulate_spec ms' 0 0) as [_ Hw'].
    destruct (foldl accumulate (0, 0) ms) as [ts tw].
    destruct (foldl accumulate (0, 0) ms') as [ts' tw']. cbn [fst snd] in *.
    assert (Py.gt tw 0 = false) as -> by (apply gt_false; lra).
    assert (Py.gt tw' 0 = false) as -> by (apply gt_false; lra).
    reflexivity.
Qed.

(** X18: a metric of confidence 0 has no say in the overall score,
    wherever in the list it stands: the loop adds 0 to both totals when
    it meets it. *)
Theorem zero_confidence_metric_is_ignored (m : RiskMetrics)
    (before after : list RiskMetrics) :
  confidence m == 0 ->
  calculate_overall_risk (before ++ m :: after)
  == calculate_overall_risk (before ++ after).
Proof.
  intros Hzero. apply calculate_overall_risk_sums;
    unfold spec_numerator, spec_denominator; rewrite !sum_over_app;
    unfold sum_over; cbn [foldr]; rewrite Hzero; lra.
Qed.

Lemma zero_confidence_metric_is_ignored_witness :
  calculate_overall_risk
    ([assess_liquidity_risk empty_record]
     ++ unweighted_metric :: [assess_protocol_risk empty_record])
  == calculate_overall_risk
       ([assess_liquidity_risk empty_record]
        ++ [assess_protocol_risk empty_record]).
Proof. apply zero_confidence_metric_is_ignored. reflexivity. Defined.

(** X19: a category that does not apply can only pull the overall score
    down: adding a metric of score 0 to metrics of scores and confidences
    that are not negative, with a positive total weight, never raises the
    overall score. *)
Theorem zero_score_metric_lowers_overall (m : RiskMetrics)
    (ms : list RiskMetrics) :
  score m == 0 -> 0 <= confidence m ->
  Forall (fun m' => 0 <= score m' /\ 0 <= confidence m') ms ->
  0 < spec_denominator ms ->
  calculate_overall_risk (m :: ms) <= calculate_overall_risk ms.
Proof.
  intros Hs Hc Hall Hpos.
  pose proof (spec_weight_positive (category m)) as Hw.
  assert (0 <= spec_weight (category m) * confidence m) as Hwc
    by (apply Qmult_le_0_compat; lra).
  assert (0 <= spec_numerator ms) as Hnum.
  { clear Hpos. unfold spec_numerator, sum_over.
    induction Hall as [|m' ms' [Hs' Hc'] _ IH]; cbn [foldr]; [lra |].
    pose proof (spec_weight_positive (category m')) as Hw'.
    assert (0 <= score m' * spec_weight (category m') * confidence m');
      [| lra].
    rewrite <- Qmult_assoc.
    apply Qmult_le_0_compat; [lra |]. apply Qmult_le_0_compat; lra. }
  assert (spec_numerator (m :: ms) == spec_numerator ms) as En.
  { unfold spec_numerator, sum_over. cbn [foldr]. rewrite Hs. lra. }
  assert (spec_denominator (m :: ms)
          == spec_weight (category m) * confidence m + spec_denominator ms)
    as Ed by reflexivity.
  destruct (calculate_overall_risk_positive ms Hpos) as [_ ->].
  destruct (calculate_overall_risk_positive (m :: ms) ltac:(lra)) as [_ ->].
  rewrite En, Ed.
  generalize dependent (spec_weight (category m) * confidence m). intros wc Hwc _.
  generalize dependent (spec_numerator ms). intros n Hn _.
  generalize dependent (spec_denominator ms). intros d Hd.
  apply Qle_shift_div_r; [lra |].
  assert (n / d * d == n) as E by (field; lra).
  assert (0 <= n / d) as Hq by (apply Qle_shift_div_l; lra).
  nra.
Qed.

Lemma zero_score_metric_lowers_overall_witness :
  calculate_overall_risk
    (assess_impermanent_loss_risk empty_record
     :: [assess_liquidity_risk empty_record])
  <= calculate_overall_risk [assess_liquidity_risk empty_record].
Proof.
  apply zero_score_metric_lowers_overall.
  - reflexivity.
  - vm_compute. discriminate.
  - repeat constructor; vm_compute; discriminate.
  - reflexivity.
Defined.

(** * The risk endpoint *)

(** The keys the merge sets are not keys the engine reads. *)
Ltac same_reads :=
  unfold get_num, get_flag, get_text, get_labels, Api.Risk.with_context;
  cbn [numbers flags texts labels audits];
  rewrite ?lookup_delete_ne, ?lookup_insert_ne by done;
  reflexivity.

Lemma with_context_smart_contract now request :
  assess_smart_contract_risk now (Api.Risk.with_context request)
  = assess_smart_contract_risk now (Api.pool_data request).
Proof.
  unfold assess_smart_contract_risk, check_audit_status, check_bug_bounty,
    check_contract_age, check_known_vulnerabilities, check_upgrade_mechanism.
  same_reads.
Qed.

Lemma with_context_other_metrics request :
  other_metrics (Api.Risk.with_context request)
  = other_metrics (Api.pool_data request).
Proof.
  unfold other_metrics, assess_impermanent_loss_risk, assess_liquidity_risk,
    assess_protocol_risk, assess_market_risk, assess_regulatory_risk,
    assess_oracle_risk, assess_bridge_risk.
  same_reads.
Qed.

Lemma with_context_assessment now request :
  assess_opportunity now (Api.Risk.with_context request)
  = assess_opportunity now (Api.pool_data request).
Proof.
  unfold assess_opportunity. rewrite !assess_categories_eq.
  rewrite with_context_smart_contract, with_context_other_metrics.
  destruct (assess_smart_contract_risk now (Api.pool_data request)); [| done].
  cbn [mbind result_bind Py.bind mret result_ret].
  unfold generate_recommendations. same_reads.
Qed.

(** X20: with the engine loaded, the risk endpoint answers with the
    overall score, tier, recommendations, profiles and ceiling of the
    assessment of the pool data alone: the chain and the protocol it
    merges in change nothing.  An exception of the engine becomes an
    HTTP 500 that carries it. *)
Theorem assess_risk_relays_assessment (now : clock)
    (request : Api.RiskAssessmentRequest) :
  Api.Risk.assess_risk true now request
  = match assess_opportunity now (Api.pool_data request) with
    | Ok r =>
        inr {| Api.Risk.success := true;
               Api.Risk.overall_score := overall_score r;
               Api.Risk.risk_tier := risk_tier r;
               Api.Risk.recommendations := recommendations r;
               Api.Risk.suitable_for := suitable_for r;
               Api.Risk.max_allocation_percentage := max_allocation_percentage r;
               Api.Risk.mock := None |}
    | Raise e =>
        inl {| Api.status_code := 500; Api.detail := Api.AssessmentError e |}
    end.
Proof.
  unfold Api.Risk.assess_risk. cbn [negb].
  rewrite with_context_assessment.
  by destruct (assess_opportunity now (Api.pool_data request)) as [[]|].
Qed.

(** X21: the mock assessment fails with an HTTP 500 exactly when the
    TVL of the pool is null, a string, a list or an object, which do not
    compare with a number.  Otherwise it knows two answers only.  It says
    MEDIUM, with a score of 5 or 6, a ceiling of 15 and two profiles,
    exactly when the TVL is not below 100000 and the audit status is
    there and is not "unaudited"; otherwise it says HIGH, with a score
    from 7 to 10, a ceiling of 5 and the Degen profile alone.  It never
    says LOW.  In mock mode the endpoint answers with the mock assessment
    of the two entries of its request. *)
Theorem assess_risk_mock_answers (tvl audit_status : option Api.Risk.entry) :
  (Api.Risk.number_of (Py.get tvl (Api.Risk.JNumber 0)) = None ->
   Api.guard (Api.Risk.mock_assessment tvl audit_status)
   = inl {| Api.status_code := 500; Api.detail := Api.TypeError "<" |})
  /\ (forall n,
        Api.Risk.number_of (Py.get tvl (Api.Risk.JNumber 0)) = Some n ->
        exists resp,
          Api.guard (Api.Risk.mock_assessment tvl audit_status) = inr resp
          /\ Api.Risk.mock resp = Some true
          /\ ((~ n < 100000
               /\ Api.Risk.equals
                    (Py.get audit_status (Api.Risk.JString "unaudited"))
                    "unaudited" = false
               /\ Api.Risk.risk_tier resp = "MEDIUM"
               /\ 5 <= Api.Risk.overall_score resp <= 6
               /\ Api.Risk.max_allocation_percentage resp = 15
               /\ Api.Risk.suitable_for resp = ["Aggressive"; "Degen"]
               /\ Api.Risk.recommendations resp
                  = [allocation_line 15; lit "✅ Stable opportunity"])
              \/ (~ (~ n < 100000
                     /\ Api.Risk.equals
                          (Py.get audit_status (Api.Risk.JString "unaudited"))
                          "unaudited" = false)
                  /\ Api.Risk.risk_tier resp = "HIGH"
                  /\ 7 <= Api.Risk.overall_score resp <= 10
                  /\ Api.Risk.max_allocation_percentage resp = 5
                  /\ Api.Risk.suitable_for resp = ["Degen"]
                  /\ Api.Risk.recommendations resp
                     = [allocation_line 5; lit "⏰ Monitor position daily"])))
  /\ (forall now request,
        Api.Risk.assess_risk false now request
        = Api.guard
            (Api.Risk.mock_assessment
               (Api.Risk.JNumber <$> numbers (Api.pool_data request) !! "tvl")
               (Api.Risk.JString
                  <$> texts (Api.pool_data request) !! "audit_status"))).
Proof.
  split; [| split; [| reflexivity]].
  - unfold Api.Risk.mock_assessment, Api.Risk.less_than.
    by intros ->.
  - unfold Api.Risk.mock_assessment, Api.Risk.less_than.
    generalize (Py.get tvl (Api.Risk.JNumber 0))
      (Py.get audit_status (Api.Risk.JString "unaudited")).
    intros v status n ->.
    destruct (Api.Risk.equals status "unaudited") eqn:Es;
      destruct (lt_cases n 100000) as [[E1 H1]|[E1 H1]];
      destruct (lt_cases n 1000000) as [[E2 H2]|[E2 H2]];
      rewrite ?E1, ?E2; try lra.
    all: cbn [Api.guard]; eexists; (split; [reflexivity |]).
    all: cbn [Api.Risk.mock Api.Risk.risk_tier Api.Risk.overall_score
                Api.Risk.max_allocation_percentage Api.Risk.suitable_for
                Api.Risk.recommendations]; rewrite ?Es.
    all: split; [done |].
    all: first
      [ left; repeat split; first [done | lra | by vm_compute]
      | right; split; [intros [? ?]; first [done | lra] |];
        repeat split; first [done | lra | by vm_compute] ].
Qed.

Lemma assess_risk_mock_answers_witness :
  Api.guard (Api.Risk.mock_assessment (Some Api.Risk.JNull) None)
  = inl {| Api.status_code := 500; Api.detail := Api.TypeError "<" |}
  /\ exists resp,
       Api.guard
         (Api.Risk.mock_assessment (Some (Api.Risk.JNumber 2000000))
            (Some (Api.Risk.JString "audited"))) = inr resp
       /\ Api.Risk.risk_tier resp = "MEDIUM".
Proof.
  split.
  - by apply (proj1 (assess_risk_mock_answers (Some Api.Risk.JNull) None)).
  - destruct (proj1 (proj2 (assess_risk_mock_answers
                              (Some (Api.Risk.JNumber 2000000))
                              (Some (Api.Risk.JString "audited"))))
                2000000 eq_refl)
      as (resp & Hresp & _ & [(_ & _ & Htier & _)|(Hnot & _)]).
    + by exists resp.
    + exfalso. apply Hnot. split; [by vm_compute | reflexivity].
Defined.

(** * The prediction endpoints in mock mode *)

(** X22: the mock APY prediction moves the current APY by the social hype:
    none at the default hype 0.5, at most 10% either way for a hype within
    [0, 1] and an APY that is not negative.  Its interval is the
    prediction less and plus 20%, so it holds the prediction when that is
    not negative and is upside down when it is.  A null hype is an HTTP
    500. *)
Theorem predict_apy_mock (pool : Api.PoolData) :
  (Api.social_hype pool = None ->
   Api.Apy.predict_apy None pool
   = inl {| Api.status_code := 500; Api.detail := Api.TypeError "-" |})
  /\ (forall hype,
        Api.social_hype pool = Some hype ->
        exists resp,
          Api.Apy.predict_apy None pool = inr resp
          /\ Api.Apy.mock resp = Some true
          /\ Api.Apy.horizon_days resp = 7%Z
          /\ (hype == 0.5 -> Api.Apy.predicted_apy resp == Api.current_apy pool)
          /\ (0 <= hype <= 1 -> 0 <= Api.current_apy pool ->
              0.9 * Api.current_apy pool <= Api.Apy.predicted_apy resp
              <= 1.1 * Api.current_apy pool)
          /\ (0 <= Api.Apy.predicted_apy resp ->
              (Api.Apy.confidence_interval resp).1 <= Api.Apy.predicted_apy resp
              <= (Api.Apy.confidence_interval resp).2)
          /\ (Api.Apy.predicted_apy resp < 0 ->
              (Api.Apy.confidence_interval resp).2
              < (Api.Apy.confidence_interval resp).1)).
Proof.
  unfold Api.Apy.predict_apy. split.
  - by intros ->.
  - intros hype ->. cbn [Api.operand Api.guard]. eexists.
    split; [reflexivity |].
    cbn [Api.Apy.mock Api.Apy.horizon_days Api.Apy.predicted_apy
           Api.Apy.confidence_interval fst snd].
    generalize (Api.current_apy pool). intros apy.
    repeat split; try done; intros; nra.
Qed.

Lemma predict_apy_mock_witness :
  exists resp,
    Api.Apy.predict_apy None (Api.PoolData_defaults 12 1000000 50000) = inr resp
    /\ Api.Apy.predicted_apy resp == 12.
Proof.
  destruct (proj2 (predict_apy_mock (Api.PoolData_defaults 12 1000000 50000))
              0.5 eq_refl) as (resp & Hresp & _ & _ & Hsame & _).
  exists resp. split; [exact Hresp |]. apply Hsame. reflexivity.
Defined.

(** X23: the mock degen prediction multiplies the current APY by 1.5, 2,
    2.25 or 3 (2 for a new pool, 1.5 otherwise, and half as much again
    when the emission rate exceeds 100), always rates the pool EXTREME and
    gives at most two warnings.  A null emission rate is an HTTP 500. *)
Theorem predict_degen_apy_mock (pool : Api.PoolData) :
  (Api.emission_rate pool = None ->
   Api.Degen.predict_degen_apy None pool
   = inl {| Api.status_code := 500; Api.detail := Api.TypeError ">" |})
  /\ (forall emission,
        Api.emission_rate pool = Some emission ->
        exists resp,
          Api.Degen.predict_degen_apy None pool = inr resp
          /\ Api.Degen.mock resp = Some true
          /\ Api.Degen.risk_level resp = "EXTREME"
          /\ Api.Degen.base_apy resp = Api.current_apy pool
          /\ Api.Degen.predicted_apy resp
             = Api.current_apy pool * Api.Degen.degen_multiplier resp
          /\ (Api.Degen.degen_multiplier resp == 1.5
              \/ Api.Degen.degen_multiplier resp == 2
              \/ Api.Degen.degen_multiplier resp == 2.25
              \/ Api.Degen.degen_multiplier resp == 3)
          /\ (length (Api.Degen.warnings resp) <= 2)%nat).
Proof.
  unfold Api.Degen.predict_degen_apy. split.
  - by intros ->.
  - intros emission ->. cbn [Api.operand Api.guard]. eexists.
    split; [reflexivity |].
    cbn [Api.Degen.mock Api.Degen.risk_level Api.Degen.base_apy
           Api.Degen.predicted_apy Api.Degen.degen_multiplier
           Api.Degen.warnings].
    do 4 (split; [done |]).
    split.
    + destruct (Py.get (Api.is_new_pool pool) false), (Py.gt emission 100);
        [right; right; right | right; left | right; right; left | left];
        reflexivity.
    + destruct (negb _), (Py.lt _ _); cbn; lia.
Qed.

Lemma predict_degen_apy_mock_witness :
  exists resp,
    Api.Degen.predict_degen_apy None (Api.PoolData_defaults 12 1000000 50000)
    = inr resp
    /\ Api.Degen.risk_level resp = "EXTREME".
Proof.
  destruct (proj2 (predict_degen_apy_mock
                     (Api.PoolData_defaults 12 1000000 50000)) 0 eq_refl)
    as (resp & Hresp & _ & Hlevel & _).
  by exists resp.
Defined.

(** * The discovery endpoint *)

Lemma filter_sublist {A : Type} (p : A -> bool) (l : list A) :
  List.filter p l `sublist_of` l.
Proof.
  induction l as [|x l IH]; cbn [List.filter]; [done |].
  destruct (p x); by constructor.
Qed.

Lemma filter_sublist_mono {A : Type} (p q : A -> bool) (l : list A) :
  (forall x, p x = true -> q x = true) ->
  List.filter p l `sublist_of` List.filter q l.
Proof.
  intros Hpq. induction l as [|x l IH]; cbn [List.filter]; [done |].
  destruct (p x) eqn:Ep.
  - rewrite (Hpq x Ep). by constructor.
  - destruct (q x); [by constructor | done].
Qed.

Lemma matches_spec (min_apy max_risk : Q) (opp : Api.Discover.opportunity) :
  Api.Discover.matches min_apy max_risk opp = true
  <-> min_apy <= Api.Discover.current_apy opp
      /\ Api.Discover.risk_score opp <= max_risk.
Proof.
  unfold Api.Discover.matches, Py.ge, Py.le.
  by rewrite andb_true_iff, !Qle_bool_iff.
Qed.

(** X24: the discovery endpoint never fails and returns, in the order of
    its list, exactly the simulated opportunities whose APY is at least
    the minimum (10 when left out) and whose risk score is at most the
    maximum (7 when left out), together with their number. *)
Theorem discover_opportunities_filters (min_apy max_risk : option Q) :
  exists resp,
    Api.Discover.discover_opportunities min_apy max_risk = inr resp
    /\ Api.Discover.success resp = true
    /\ Api.Discover.count resp = length (Api.Discover.opportunities resp)
    /\ (Api.Discover.count resp <= 6)%nat
    /\ Api.Discover.opportunities resp `sublist_of` Api.Discover.simulated
    /\ (forall opp,
          opp ∈ Api.Discover.opportunities resp
          <-> opp ∈ Api.Discover.simulated
              /\ Py.get min_apy 10 <= Api.Discover.current_apy opp
              /\ Api.Discover.risk_score opp <= Py.get max_risk 7).
Proof.
  unfold Api.Discover.discover_opportunities. cbn [Api.guard]. eexists.
  split; [reflexivity |].
  cbn [Api.Discover.success Api.Discover.count Api.Discover.opportunities].
  split; [done |]. split; [done |].
  pose proof (filter_sublist
                (Api.Discover.matches (Py.get min_apy 10) (Py.get max_risk 7))
                Api.Discover.simulated) as Hsub.
  split; [apply sublist_length in Hsub; exact Hsub |].
  split; [done |].
  intros opp. rewrite !list_elem_of_In, filter_In, matches_spec. tauto.
Qed.

(** X25: tightening either threshold of the discovery endpoint only
    removes opportunities: the stricter answer is a sublist of the
    looser one. *)
Theorem discover_opportunities_monotone (min1 min2 max1 max2 : Q)
    (strict loose : Api.Discover.response) :
  min1 <= min2 -> max2 <= max1 ->
  Api.Discover.discover_opportunities (Some min2) (Some max2) = inr strict ->
  Api.Discover.discover_opportunities (Some min1) (Some max1) = inr loose ->
  Api.Discover.opportunities strict `sublist_of` Api.Discover.opportunities loose
  /\ (Api.Discover.count strict <= Api.Discover.count loose)%nat.
Proof.
  intros Hmin Hmax. unfold Api.Discover.discover_opportunities.
  cbn [Api.guard Py.get]. intros [= <-] [= <-].
  cbn [Api.Discover.count Api.Discover.opportunities].
  assert (List.filter (Api.Discover.matches min2 max2) Api.Discover.simulated
          `sublist_of`
          List.filter (Api.Discover.matches min1 max1) Api.Discover.simulated)
    as Hsub.
  { apply filter_sublist_mono. intros opp. rewrite !matches_spec. lra. }
  split; [done | by apply sublist_length].
Qed.

Lemma discover_opportunities_monotone_witness :
  exists strict loose,
    Api.Discover.discover_opportunities (Some 20) (Some 5) = inr strict
    /\ Api.Discover.discover_opportunities (Some 10) (Some 7) = inr loose
    /\ Api.Discover.opportunities strict
       `sublist_of` Api.Discover.opportunities loose.
Proof.
  do 2 eexists. split; [reflexivity |]. split; [reflexivity |].
  eapply (discover_opportunities_monotone 10 20 7 5); [lra | lra | ..];
    reflexivity.
Defined.

(** * The degen helpers *)

(** X26: the degen multiplier lies within [1, 5], and the cap of 5 is met
    exactly when all four boosts apply (a new pool, an emission rate above
    1000, a social hype above 0.8 and leverage), whose product 5.46 is the
    only one above it. *)
Theorem degen_multiplier_cap (pool_data : OpportunityRecord) :
  1 <= ApyPredictor._calculate_degen_multiplier pool_data <= 5
  /\ (ApyPredictor._calculate_degen_multiplier pool_data == 5
      <-> get_flag pool_data "is_new_pool" false = true
          /\ 1000 < get_num pool_data "emission_rate" 0
          /\ 0.8 < get_num pool_data "social_hype" 0
          /\ get_flag pool_data "leverage_available" false = true).
Proof.
  unfold ApyPredictor._calculate_degen_multiplier.
  destruct (get_flag pool_data "is_new_pool" false),
    (get_flag pool_data "leverage_available" false);
    destruct (gt_cases (get_num pool_data "emission_rate" 0) 1000)
      as [[-> He]|[-> He]];
    destruct (gt_cases (get_num pool_data "social_hype" 0) 0.8)
      as [[-> Hh]|[-> Hh]];
    (split; [by vm_compute |]);
    (split; [intros Hcap; try (by vm_compute in Hcap); repeat split; done
            | intros (? & ? & ? & ?); first [done | lra | by vm_compute]]).
Qed.

(** X27: the degen warnings are at most five, and there is none exactly
    when all five checks pass: the status is "audited", the TVL is at
    least 100000, the pool is not new, the rug-risk score is at most 0.5
    and no leverage is available.  A missing status or TVL warns. *)
Theorem degen_warnings_none_iff (pool_data : OpportunityRecord) :
  (length (ApyPredictor._get_degen_warnings pool_data) <= 5)%nat
  /\ (ApyPredictor._get_degen_warnings pool_data = []
      <-> texts pool_data !! "audit_status" = Some "audited"
          /\ 100000 <= get_num pool_data "tvl" 0
          /\ get_flag pool_data "is_new_pool" false = false
          /\ get_num pool_data "rug_risk_score" 0 <= 0.5
          /\ get_flag pool_data "leverage_available" false = false).
Proof.
  unfold ApyPredictor._get_degen_warnings.
  destruct (decide (texts pool_data !! "audit_status" = Some "audited"))
    as [Ea|Ea];
    [rewrite (bool_decide_eq_true_2 _ Ea)
    | rewrite (bool_decide_eq_false_2 _ Ea)]; cbn [negb];
    destruct (get_flag pool_data "is_new_pool" false),
      (get_flag pool_data "leverage_available" false);
    destruct (lt_cases (get_num pool_data "tvl" 0) 100000) as [[-> Ht]|[-> Ht]];
    destruct (gt_cases (get_num pool_data "rug_risk_score" 0) 0.5)
      as [[-> Hr]|[-> Hr]];
    (split; [cbn; lia |]);
    (split; [intros Hnil; try discriminate Hnil; repeat split; done
            | intros (? & ? & ? & ? & ?); first [done | lra]]).
Qed.
